(* ===== verification/_CoqProject ===== *)
-Q . S2P
Prelude.v
Keys.v
StoreIface.v
Navigation.v
Session.v
Int32.v
Render.v
Frames.v
Liveness.v
