(* ===== verification/Prelude.v ===== *)
(** * Universal-Updater: the store grid, verified

    This development models the grid view of the Universal-Updater
    store browser ([src/source/store/grid.cpp]) and proves the properties
    that keep its three cursor fields consistent with each other and with
    what is drawn.

    ** The program

    [grid.cpp] has one table and two functions:
    - [GridBoxes] (lines 30-48): the fifteen on-screen cells, 3 rows of 5,
      each a [Structs::ButtonPos] {x, y, w, h};
    - [StoreUtils::GridLogic] (lines 102-178): called once per frame. It
      reads the key masks [hRepeat] and [hDown] and, for each of the
      directions DOWN, RIGHT, LEFT and UP in that order, runs that
      direction's handler. The handlers update the three grid fields of the
      [Store] object through its accessors: [Box] (the highlighted cell,
      0..14), [Entry] (the index of the selected entry in the whole list)
      and [ScreenIndx] (the index of the first visible row, so the first
      visible entry is [5 * ScreenIndx]). On [KEY_A] it requests the
      fetch mode ([fetch], [smallDelay], [lastMode], [currentMode]);
    - [StoreUtils::DrawGrid] (lines 56-86): draws the background, then
      the window of at most 15 entries starting at [5 * ScreenIndx], the
      selection frame on cell [Box], each entry's icon centred in its cell
      and the update mark.
    The two functions share no state but the [Store] fields: GridLogic
    writes them, DrawGrid reads them the next frame.
    [src/include/overlays/overlay.hpp] only declares the overlay menus;
    their code is not in [src/] and is not modelled.

    ** Files
    - [Prelude]: C integer semantics (the int32 range, the uint8_t
      conversion, C's truncating [/] and [%] as [Z.quot]/[Z.rem]), the
      rewrite databases [store] (accessor laws) and [grid_rw] (key
      masks), the tactic [zlia] (lia after euclidean division is
      turned into equations) and [split_zcmp] (case split on the
      comparisons of an [if]).
    - [Keys]: the libctru key masks ([KEY_DOWN] = D-pad or circle pad,
      ...) and the test [hRepeat & KEY_X] as [Z.land]; the masks are
      disjoint, so a frame with one key runs one handler.
    - [StoreIface]: the interface between GridLogic/DrawGrid and the
      [Store] class: a typeclass [StoreAccess] of the six accessors the
      code calls ([GetBox]/[SetBox], [GetEntry]/[SetEntry],
      [GetScreenIndx]/[SetScreenIndx]) and a class [StoreAccessLaws] of
      what the accessors promise (a getter returns what its setter stored,
      and a setter leaves the other fields alone). Its concrete instance
      is the record [Store]. The [GridView] of a store is its three
      fields; [grid_inv] is the window invariant
      [Entry = 5 * ScreenIndx + Box /\ 0 <= Box <= 14 /\ 0 <= ScreenIndx].
    - [Navigation]: the four direction handlers and the [KEY_A] handler,
      each the C block written against the accessor interface, and
      [GridLogic] composing them in the code's order. Theorems: every
      branch's effect, preservation of [grid_inv] for any list length,
      the no-op boundaries, the round trips, the masks each block reacts
      to (the D-pad and the circle pad alike).
    - [Session]: the browsing session as a step relation (one [GridLogic]
      call per frame, the list length free to change between frames or
      fixed); reachability by rule induction; the range invariant
      [0 <= Entry < n] for a fixed length; the no-scrolling result for at
      most 15 entries; the bound [5 * (ScreenIndx + 2) < n] on the window
      of a longer list; a refinement of the handlers' effect on [Entry] to
      an abstract "cursor on a list" specification.
    - [Int32]: the same key blocks with every C [int] [+] and [-] reduced
      to 32 bits ([wrap32]); their agreement with [Navigation]'s blocks
      in every session on a list of at most [INT_MAX - 5] entries, and
      the overflow of DOWN past that bound.
    - [Frames]: a frame in normal form: [held] lists the direction
      blocks a [hRepeat] mask runs, in the code's order DOWN, RIGHT, LEFT,
      UP, and [run_keys] runs them. Theorems on DOWN and UP held
      together and on lists that shrank below the selection; the
      [Proper] instances of the handlers lifted to whole frames.
    - [Liveness]: composes [Session], [Frames] and [Render]: every entry
      is selectable from a fresh store by a row-first path that ends on a
      known cell and window and is within four frames of the shortest;
      every reachable store, also with a list that changes length, is
      drawn without an out-of-bounds read and with the selected entry
      highlighted when it exists.
    - [Render]: [GridBoxes], the icon centring with its uint8_t
      wrap-around, and [DrawGrid] as the list of draw commands it issues,
      with an out-of-bounds read of [entries] as an error value. Theorems:
      the loop equals a reference window, it draws one selection frame on
      the selected entry, the icons and update marks it draws, small
      icons stay inside their cell, the cell table is the 3 x 5 lattice
      the row/column arithmetic assumes.

    ** What the theorems show
    - Window invariant (Navigation, Session): one [GridLogic] frame keeps
      [Entry = 5 * ScreenIndx + Box], [0 <= Box <= 14], [ScreenIndx >= 0]
      for any keys and any list length; hence every reachable store
      satisfies it. For a fixed list, [0 <= Entry < size]; with at most 15
      entries the window never scrolls; with none the cursor never moves.
    - Behaviour of each key block, every branch (Navigation): DOWN, RIGHT,
      LEFT, UP as closed-form updates of the view; boundary no-ops; the
      LEFT/RIGHT round trips, which are the identity inside a window and
      not at its edges; one held key runs one block, whether it comes from
      the D-pad or the circle pad; KEY_A hands over to the fetch mode even
      for an empty list.
    - Refinement (Session): on [Entry] every block implements the abstract
      list cursor [sel_step].
    - Rendering (Render): the C loop equals the reference window
      [window_cmds]; one selection frame is drawn, on cell [Box], with the
      selected entry's icon; a negative [ScreenIndx] makes the loop read
      out of bounds; the icons drawn are exactly the non-null entries of
      the window that exist, in cell order, so the cells past the end of
      the list stay blank; the update marks sit 32 pixels into the cells
      of the entries with an update; icons of at most 48 x 48 pixels stay
      inside their cell; [GridBoxes] is the 3 x 5 lattice; the uint8_t
      icon offset wraps for icons wider than 49 pixels.
    - 32-bit arithmetic (Int32): in every session on a list of at most
      [INT_MAX - 5] entries, a frame computed with wrap-around [int]
      arithmetic equals the unbounded model, so no operation overflows;
      past that bound DOWN from the upper rows wraps [Entry + 5] and
      stores a negative entry.
    - Frames and order (Frames): a frame is the held blocks run in code
      order; DOWN and UP held together cancel on the upper rows, scroll
      the window without moving the selection on the bottom row, and
      near the end of the list move the selection to entry [size - 6]
      (DOWN jumps to the last entry, UP goes back five); RIGHT and LEFT
      held together are [Navigation.right_left].
    - Shrunk lists (Frames, Render): once [Entry >= size], RIGHT and DOWN
      do nothing, no selection frame is drawn, and [Entry - size + 1]
      LEFT presses bring the selection back to the last entry.
    - Liveness and speed (Liveness): entry [t = 5q + r] is selected
      after [q] DOWN and [r] RIGHT frames, which end on cell
      [5 * min q 2 + r] with the window at row [max 0 (q - 2)]; every
      block moves [Entry] by at most five, so no path is shorter than
      [t / 5] blocks.
    - Composition of GridLogic and DrawGrid (Liveness): every reachable
      store, with the list length free to change between frames, is
      drawn without an out-of-bounds read, with exactly one selection
      frame, on cell [Box], when the selected entry exists and none
      otherwise.
    - Window never past the end (Session): in a session on a fixed list
      of more than 15 entries the bottom row of the window always starts
      at an existing entry, whatever keys are held.

    ** Plan for the next steps
    1. The exact shortest path to entry [t]: the lower bound [t / 5]
       and the row-first path [t / 5 + t mod 5] differ by at most four,
       and the jump of DOWN to the last entry shortens some paths near
       the end of the list.
    2. Sessions whose list length changes between frames: the window
       bound of [Session.session_inv] fails there (a list that shrinks
       leaves the window past its end until LEFT or UP bring it back);
       a bound on the number of frames that recovery takes.

    ** Modelling choices
    - C [int] values are [Z] in [Navigation]. [Int32] models the same
      blocks with every [int] [+] and [-] wrapping to 32 bits (signed
      overflow is undefined in C; two's complement wrap-around is what the
      3DS's ARM code does), and [Int32.GridLogic_int32_agrees] shows the
      two agree on every frame of every session on a list of at most
      [INT_MAX - 5] entries, so the unbounded model is the C semantics
      there. A [std::vector] of pointers on the 3DS holds far fewer
      entries, so lists of [2^31] entries or more are not considered.
    - [(int)entries.size()] is [int_of_size] (a 32-bit two's complement
      wrap); [entries.size() > 15] compares the unsigned size itself.
    - C's [/] and [%] truncate toward zero: [Z.quot] and [Z.rem].
    - [DrawGrid]'s loop runs at most 15 times; it is a [Fixpoint] on a
      fuel of 15, and the lemma [Render.draw_loop_fuel_enough] shows more
      fuel does not change the result.
    - Drawing is modelled as the sequence of draw calls (position and
      entry), not as pixels.

    ** Not modelled
    The overlays (declared in overlay.hpp, implemented outside [src/]),
    the image decoding behind [GetIcon], network fetch and the other
    fields of [Store] and [StoreEntry]: the grid code only calls them. *)

From Stdlib Require Import ZArith Lia List.
Import ListNotations.

Declare Scope grid_scope.
Delimit Scope grid_scope with grid.
Open Scope Z_scope.

Create Rewrite HintDb grid_rw.
Create Rewrite HintDb store.

(** ** C integers *)

Definition INT_MIN : Z := - 2 ^ 31.
Definition INT_MAX : Z := 2 ^ 31 - 1.

(** A value representable as a 32-bit [int]. *)
Definition in_int32 (z : Z) : Prop := INT_MIN <= z <= INT_MAX.

(** The range of a 32-bit [size_t], such as [entries.size()]. *)
Definition size_t_range (n : Z) : Prop := 0 <= n < 2 ^ 32.

(** The conversion of an unsigned 32-bit value to [int]: two's
    complement wrap-around. *)
Definition int_of_size (n : Z) : Z :=
  let m := n mod 2 ^ 32 in if m <=? INT_MAX then m else m - 2 ^ 32.

(** The conversion of an [int] to [uint8_t]: reduction modulo 256. *)
Definition to_uint8 (z : Z) : Z := z mod 2 ^ 8.

(** ** The 3 x 5 grid *)

Definition GRID_COLS : Z := 5.

(** The row and column of cell [i]. *)
Notation "'row' i" := (i / GRID_COLS) (at level 10, i at level 9) : grid_scope.
Notation "'col' i" := (i mod GRID_COLS) (at level 10, i at level 9) : grid_scope.
Open Scope grid_scope.

(** ** Tactics *)

(** [lia] after C's and Rocq's divisions are turned into equations. *)
Ltac zlia := unfold INT_MIN, INT_MAX, GRID_COLS in *; Z.to_euclidean_division_equations; lia.

(** Split every [if] on a Z comparison in the goal into its two cases,
    with the comparison as a hypothesis. *)
Ltac split_zcmp :=
  repeat match goal with
  | |- context [if ?a <? ?b then _ else _] => destruct (Z.ltb_spec a b)
  | |- context [if ?a <=? ?b then _ else _] => destruct (Z.leb_spec a b)
  | |- context [if ?a =? ?b then _ else _] => destruct (Z.eqb_spec a b)
  end.

(** ** Shared lemmas on C arithmetic *)

Lemma int_of_size_small n : 0 <= n <= INT_MAX -> int_of_size n = n.
Proof.
  intros Hn. unfold int_of_size.
  rewrite Z.mod_small by (unfold INT_MAX in *; lia).
  destruct (Z.leb_spec n INT_MAX); lia.
Qed.

Lemma int_of_size_in_int32 n : in_int32 (int_of_size n).
Proof.
  unfold int_of_size, in_int32.
  pose proof (Z.mod_pos_bound n (2 ^ 32) ltac:(lia)).
  destruct (Z.leb_spec (n mod 2 ^ 32) INT_MAX); unfold INT_MIN, INT_MAX in *; lia.
Qed.

(** A [size_t] value whose [int] conversion is non-negative was small. *)
Lemma int_of_size_nonneg n :
  0 <= n < 2 ^ 32 -> 0 <= int_of_size n -> int_of_size n = n.
Proof.
  intros Hn Hpos. unfold int_of_size in *. rewrite Z.mod_small in * by lia.
  destruct (Z.leb_spec n INT_MAX); unfold INT_MAX in *; lia.
Qed.

(** [entries.size() - 1] when the [int] conversion of the size is
    positive: no wrap-around on either side. *)
Lemma int_of_size_pred n :
  0 <= n < 2 ^ 32 -> 0 < int_of_size n -> int_of_size n = n /\ int_of_size (n - 1) = n - 1.
Proof.
  intros Hn Hpos. pose proof (int_of_size_in_int32 n) as Hr.
  assert (E : int_of_size n = n) by (apply int_of_size_nonneg; lia).
  split; [exact E|]. apply int_of_size_small. unfold in_int32 in Hr. lia.
Qed.

Lemma int_of_size_le n : 0 <= n < 2 ^ 32 -> int_of_size n <= n.
Proof.
  intros Hn. unfold int_of_size. rewrite Z.mod_small by lia.
  destruct (Z.leb_spec n INT_MAX); lia.
Qed.

