(* ===== verification/Keys.v ===== *)
(** * Keys: the input masks GridLogic tests

    [GridLogic] tests the 32-bit masks [hRepeat] (keys held, re-delivered
    on the repeat cadence) and [hDown] (keys pressed this frame) with
    [hRepeat & KEY_DOWN] and the like. The key constants are libctru's
    ([hid.h]): each direction is the D-pad bit or'ed with the circle-pad
    bit. A test is [Z.land] against the mask, non-zero meaning pressed. *)

From Stdlib Require Import ZArith Lia Bool.
From S2P Require Import Prelude.

Open Scope Z_scope.

Definition BIT (n : Z) : Z := Z.shiftl 1 n.

Definition KEY_A : Z := BIT 0.
Definition KEY_DRIGHT : Z := BIT 4.
Definition KEY_DLEFT : Z := BIT 5.
Definition KEY_DUP : Z := BIT 6.
Definition KEY_DDOWN : Z := BIT 7.
Definition KEY_CPAD_RIGHT : Z := BIT 28.
Definition KEY_CPAD_LEFT : Z := BIT 29.
Definition KEY_CPAD_UP : Z := BIT 30.
Definition KEY_CPAD_DOWN : Z := BIT 31.

Definition KEY_UP : Z := Z.lor KEY_DUP KEY_CPAD_UP.
Definition KEY_DOWN : Z := Z.lor KEY_DDOWN KEY_CPAD_DOWN.
Definition KEY_LEFT : Z := Z.lor KEY_DLEFT KEY_CPAD_LEFT.
Definition KEY_RIGHT : Z := Z.lor KEY_DRIGHT KEY_CPAD_RIGHT.

(** [if (mask & key)]: the C truth value of a bitwise and. *)
Definition pressed (mask key : Z) : bool := negb (Z.land mask key =? 0).

(** The five keys GridLogic reacts to. *)
Inductive GridKey := KDown | KRight | KLeft | KUp | KA.

Definition key_mask (k : GridKey) : Z :=
  match k with
  | KDown => KEY_DOWN | KRight => KEY_RIGHT | KLeft => KEY_LEFT
  | KUp => KEY_UP | KA => KEY_A
  end.

Definition GridKey_eqb (k k' : GridKey) : bool :=
  match k, k' with
  | KDown, KDown | KRight, KRight | KLeft, KLeft | KUp, KUp | KA, KA => true
  | _, _ => false
  end.

(** ** Lemmas *)

Lemma pressed_0 k : pressed 0 k = false.
Proof. reflexivity. Qed.

(** The five masks are pairwise disjoint and non-zero: holding exactly
    one of them triggers exactly that key's handler. *)
Lemma pressed_key_mask k k' : pressed (key_mask k) (key_mask k') = GridKey_eqb k k'.
Proof. destruct k, k'; vm_compute; reflexivity. Qed.

#[export] Hint Rewrite pressed_key_mask pressed_0 : grid_rw.
