(* ===== verification/StoreIface.v ===== *)
(** * StoreIface: what GridLogic and DrawGrid need of the [Store] class

    The grid code reaches the cursor only through six accessors of
    [Store] ([store->GetBox()], [store->SetBox(v)], ...). [StoreAccess]
    is that interface and [StoreAccessLaws] what the class promises about
    it. The navigation theorems are proved against these two classes; the
    record [Store] is an instance, used to run the model. A store is
    observed through its [GridView]; two stores with the same view are
    [grid_equiv], the equivalence the handlers respect. *)

From Stdlib Require Import ZArith Lia.
From Stdlib Require Import Morphisms RelationClasses.
From stdpp Require Import base decidable numbers.
From S2P Require Import Prelude.

Open Scope Z_scope.

(** ** The accessor interface *)

Class StoreAccess (S : Type) := {
  GetBox : S -> Z;
  SetBox : S -> Z -> S;
  GetEntry : S -> Z;
  SetEntry : S -> Z -> S;
  GetScreenIndx : S -> Z;
  SetScreenIndx : S -> Z -> S
}.

(** A getter returns what its setter stored; a setter leaves the other
    two fields alone. *)
Class StoreAccessLaws (S : Type) `{StoreAccess S} := {
  GetBox_SetBox s v : GetBox (SetBox s v) = v;
  GetEntry_SetBox s v : GetEntry (SetBox s v) = GetEntry s;
  GetScreenIndx_SetBox s v : GetScreenIndx (SetBox s v) = GetScreenIndx s;
  GetBox_SetEntry s v : GetBox (SetEntry s v) = GetBox s;
  GetEntry_SetEntry s v : GetEntry (SetEntry s v) = v;
  GetScreenIndx_SetEntry s v : GetScreenIndx (SetEntry s v) = GetScreenIndx s;
  GetBox_SetScreenIndx s v : GetBox (SetScreenIndx s v) = GetBox s;
  GetEntry_SetScreenIndx s v : GetEntry (SetScreenIndx s v) = GetEntry s;
  GetScreenIndx_SetScreenIndx s v : GetScreenIndx (SetScreenIndx s v) = v
}.

#[export] Hint Rewrite @GetBox_SetBox @GetEntry_SetBox @GetScreenIndx_SetBox
  @GetBox_SetEntry @GetEntry_SetEntry @GetScreenIndx_SetEntry
  @GetBox_SetScreenIndx @GetEntry_SetScreenIndx @GetScreenIndx_SetScreenIndx
  using typeclasses eauto : store.

(** ** What the grid observes of a store *)

Record GridView := mkView { v_box : Z; v_entry : Z; v_screen : Z }.

#[export] Instance GridView_eq_dec : EqDecision GridView.
Proof. solve_decision. Defined.

Definition view {S} `{StoreAccess S} (s : S) : GridView :=
  mkView (GetBox s) (GetEntry s) (GetScreenIndx s).

Definition grid_equiv {S} `{StoreAccess S} (s s' : S) : Prop := view s = view s'.

(** The window invariant: the selected entry is the highlighted cell of
    the window that starts at row [ScreenIndx]. *)
Definition grid_inv (v : GridView) : Prop :=
  v_entry v = 5 * v_screen v + v_box v /\ 0 <= v_box v <= 14 /\ 0 <= v_screen v.

Definition grid_inv_b (v : GridView) : bool :=
  (v_entry v =? 5 * v_screen v + v_box v) && (0 <=? v_box v) && (v_box v <=? 14)
  && (0 <=? v_screen v).

(** ** The concrete [Store] *)

Record Store := mkStore { box : Z; entry : Z; screenIndx : Z }.

#[export] Instance Store_access : StoreAccess Store := {
  GetBox := box;
  SetBox s v := mkStore v (entry s) (screenIndx s);
  GetEntry := entry;
  SetEntry s v := mkStore (box s) v (screenIndx s);
  GetScreenIndx := screenIndx;
  SetScreenIndx s v := mkStore (box s) (entry s) v
}.

(** A new store starts on the first cell of the first page. *)
Definition initial_store : Store := mkStore 0 0 0.

(** ** Lemmas *)

#[export] Instance Store_laws : StoreAccessLaws Store.
Proof. split; reflexivity. Qed.

#[export] Instance grid_equiv_equivalence {S} `{StoreAccess S} :
  Equivalence (@grid_equiv S _).
Proof. unfold grid_equiv. split; [intros ? | intros ?? | intros ???]; congruence. Qed.

Lemma grid_inv_b_spec v : reflect (grid_inv v) (grid_inv_b v).
Proof.
  apply iff_reflect. unfold grid_inv, grid_inv_b.
  rewrite !andb_true_iff, Z.eqb_eq, !Z.leb_le. tauto.
Qed.

#[export] Instance grid_inv_dec v : Decision (grid_inv v).
Proof. destruct (grid_inv_b_spec v); [left | right]; assumption. Defined.

(** The concrete store has no field but the three the grid uses. *)
Lemma Store_view_inj (s s' : Store) : view s = view s' -> s = s'.
Proof. destruct s, s'. unfold view. simpl. congruence. Qed.

