(* ===== verification/Navigation.v ===== *)
(** * Navigation: [StoreUtils::GridLogic] (grid.cpp, lines 102-178)

    One definition per block of [GridLogic]: [DownLogic], [RightLogic],
    [LeftLogic] and [UpLogic] are the bodies of the four
    [if (hRepeat & KEY_...)] blocks, [ALogic] the [KEY_A] block, and
    [GridLogic] runs them in the code's order on one frame's key masks.
    Each handler is written against the [StoreAccess] interface, one
    accessor call per call of the C code, in the same order. The list of
    entries enters only through [size] ([entries.size()]). *)

From Stdlib Require Import ZArith Lia Bool List.
Import ListNotations.
From Stdlib Require Import Morphisms.
From S2P Require Import Prelude Keys StoreIface.

Open Scope Z_scope.

(** The mode variables GridLogic writes on [KEY_A]. *)
Record Mode := mkMode {
  currentMode : Z;
  lastMode : Z;
  fetch : bool;
  smallDelay : Z
}.

Section Handlers.
Context {S : Type} `{StoreAccess S}.

(** [if (hRepeat & KEY_DOWN) { ... }] *)
Definition DownLogic (size : Z) (store : S) : S :=
  if 9 <? GetBox store then
    if GetEntry store + 5 <? int_of_size size - 1 then
      let store := SetEntry store (GetEntry store + 5) in
      if 15 <? size then SetScreenIndx store (Z.quot (GetEntry store) 5 - 2) else store
    else
      if GetEntry store <? int_of_size size - 1 then
        let store := SetEntry store (int_of_size (size - 1)) in
        let store := SetBox store (10 + Z.rem (GetEntry store) 5) in
        if 15 <? size then SetScreenIndx store (Z.quot (GetEntry store) 5 - 2) else store
      else store
  else
    if GetEntry store + 5 <? int_of_size size then
      let store := SetBox store (GetBox store + 5) in
      SetEntry store (GetEntry store + 5)
    else store.

(** [if (hRepeat & KEY_RIGHT) { ... }] *)
Definition RightLogic (size : Z) (store : S) : S :=
  if GetEntry store <? int_of_size size - 1 then
    if GetBox store <? 14 then
      let store := SetBox store (GetBox store + 1) in
      SetEntry store (GetEntry store + 1)
    else
      let store := SetBox store 10 in
      let store := SetEntry store (GetEntry store + 1) in
      SetScreenIndx store (Z.quot (GetEntry store) 5 - 2)
  else store.

(** [if (hRepeat & KEY_LEFT) { ... }] *)
Definition LeftLogic (store : S) : S :=
  if 0 <? GetEntry store then
    if 0 <? GetBox store then
      let store := SetBox store (GetBox store - 1) in
      SetEntry store (GetEntry store - 1)
    else
      let store := SetBox store 4 in
      let store := SetEntry store (GetEntry store - 1) in
      SetScreenIndx store (Z.quot (GetEntry store) 5)
  else store.

(** [if (hRepeat & KEY_UP) { ... }] *)
Definition UpLogic (store : S) : S :=
  if GetBox store <? 5 then
    if 4 <? GetEntry store then
      let store := SetEntry store (GetEntry store - 5) in
      SetScreenIndx store (Z.quot (GetEntry store) 5)
    else store
  else
    let store := SetBox store (GetBox store - 5) in
    SetEntry store (GetEntry store - 5).

(** [if (hDown & KEY_A) { fetch = true; smallDelay = 5;
    lastMode = currentMode; currentMode = 1; }] *)
Definition ALogic (m : Mode) : Mode :=
  {| fetch := true; smallDelay := 5; lastMode := currentMode m; currentMode := 1 |}.

(** [GridLogic(store, entries, currentMode, lastMode, fetch, smallDelay)]
    with [size = entries.size()]; [None] is a null [store]. *)
Definition GridLogic (store : option S) (size : Z) (m : Mode) (hRepeat hDown : Z)
    : option S * Mode :=
  match store with
  | None => (None, m)
  | Some st =>
      let st := if pressed hRepeat KEY_DOWN then DownLogic size st else st in
      let st := if pressed hRepeat KEY_RIGHT then RightLogic size st else st in
      let st := if pressed hRepeat KEY_LEFT then LeftLogic st else st in
      let st := if pressed hRepeat KEY_UP then UpLogic st else st in
      let m := if pressed hDown KEY_A then ALogic m else m in
      (Some st, m)
  end.

(** The handler of one key, as [GridLogic] runs it. *)
Definition key_handler (k : GridKey) (size : Z) (st : S) : S :=
  match k with
  | KDown => DownLogic size st
  | KRight => RightLogic size st
  | KLeft => LeftLogic st
  | KUp => UpLogic st
  | KA => st
  end.
End Handlers.

(** Unfold the handlers, split their conditions and push the getters
    through the setters. *)
Ltac grid_simpl :=
  unfold DownLogic, RightLogic, LeftLogic, UpLogic, view, grid_inv in *;
  split_zcmp; autorewrite with store in *; simpl in *.

(** A handler maps stores with equal views to stores with equal views:
    rewrite the input getters, then split as for [grid_simpl]. *)
Ltac respect_view E :=
  let Hb := fresh "Hb" in let He := fresh "He" in
  unfold grid_equiv, view in *; injection E as Hb He ?;
  unfold DownLogic, RightLogic, LeftLogic, UpLogic; rewrite Hb, He;
  split_zcmp; autorewrite with store; congruence.

Section Invariant.
Context {S : Type} `{StoreAccessLaws S}.

Lemma DownLogic_inv n (s : S) :
  size_t_range n -> grid_inv (view s) -> grid_inv (view (DownLogic n s)).
Proof.
  unfold size_t_range. intros Hn Hinv. pose proof (int_of_size_le n Hn).
  grid_simpl; try zlia;
    destruct (int_of_size_pred n) as [E1 E2]; try lia; rewrite ?E1, ?E2 in *; zlia.
Qed.

Lemma RightLogic_inv n (s : S) : grid_inv (view s) -> grid_inv (view (RightLogic n s)).
Proof. intros Hinv. grid_simpl; zlia. Qed.

Lemma LeftLogic_inv (s : S) : grid_inv (view s) -> grid_inv (view (LeftLogic s)).
Proof. intros Hinv. grid_simpl; zlia. Qed.

Lemma UpLogic_inv (s : S) : grid_inv (view s) -> grid_inv (view (UpLogic s)).
Proof. intros Hinv. grid_simpl; zlia. Qed.

Lemma cond_handler_inv (b : bool) (h : S -> S) (s : S) :
  (forall s, grid_inv (view s) -> grid_inv (view (h s))) ->
  grid_inv (view s) -> grid_inv (view (if b then h s else s)).
Proof. destruct b; auto. Qed.

Lemma frame_inv n m m' hRepeat hDown (s s' : S) :
  size_t_range n -> grid_inv (view s) ->
  GridLogic (Some s) n m hRepeat hDown = (Some s', m') -> grid_inv (view s').
Proof.
  intros Hn Hinv E. simpl in E. injection E as <- _.
  repeat apply cond_handler_inv; auto using DownLogic_inv, RightLogic_inv,
    LeftLogic_inv, UpLogic_inv.
Qed.

(** C1. One frame of [GridLogic] keeps the window invariant, whatever
    keys are held and whatever the length of the list. *)
Theorem GridLogic_preserves_inv n m hRepeat hDown (s s' : S) :
  size_t_range n -> grid_inv (view s) ->
  fst (GridLogic (Some s) n m hRepeat hDown) = Some s' -> grid_inv (view s').
Proof.
  intros Hn Hinv E. destruct (GridLogic (Some s) n m hRepeat hDown) eqn:G.
  simpl in E. subst. eapply frame_inv; eauto.
Qed.
End Invariant.

Section Branches.
Context {S : Type} `{StoreAccessLaws S}.

(** C2. DOWN: from the two upper rows the cursor moves one row down
    when an entry lies five ahead, and nothing happens otherwise; from
    the bottom row the window scrolls one row when the entry five ahead
    is not the last, else the selection jumps to the last entry, on the
    bottom row, with the window two rows above its row. *)
Theorem DownLogic_spec n (s : S) :
  0 <= n <= INT_MAX -> grid_inv (view s) ->
  let '(mkView b e sc) := view s in
  view (DownLogic n s) =
    if b <=? 9 then
      if e + 5 <? n then mkView (b + 5) (e + 5) sc else view s
    else if e + 5 <? n - 1 then mkView b (e + 5) (sc + 1)
    else if e <? n - 1 then mkView (10 + (n - 1) mod 5) (n - 1) ((n - 1) / 5 - 2)
    else view s.
Proof.
  intros Hn Hinv. unfold DownLogic.
  rewrite !int_of_size_small by (unfold INT_MAX in *; lia).
  grid_simpl; rewrite ?(int_of_size_small (n - 1)) by (unfold INT_MAX in *; lia);
    f_equal; zlia.
Qed.

(** C3. RIGHT: unless the last entry is selected, the cursor moves one
    cell right; from the last cell (14) it wraps to the first cell of the
    bottom row and the window scrolls one row. *)
Theorem RightLogic_spec n (s : S) :
  grid_inv (view s) ->
  let '(mkView b e sc) := view s in
  view (RightLogic n s) =
    if e <? int_of_size n - 1 then
      if b <? 14 then mkView (b + 1) (e + 1) sc else mkView 10 (e + 1) (sc + 1)
    else view s.
Proof. intros Hinv. grid_simpl; f_equal; zlia. Qed.

(** C4. LEFT: unless the first entry is selected, the cursor moves one
    cell left; from cell 0 it wraps to the last cell of the top row and
    the window scrolls one row back. *)
Theorem LeftLogic_spec (s : S) :
  grid_inv (view s) ->
  let '(mkView b e sc) := view s in
  view (LeftLogic s) =
    if 0 <? e then
      if 0 <? b then mkView (b - 1) (e - 1) sc else mkView 4 (e - 1) (sc - 1)
    else view s.
Proof. intros Hinv. grid_simpl; f_equal; zlia. Qed.

(** C5. UP: below the top row the cursor moves one row up; on the top
    row the window scrolls one row back when there is a row above, and
    nothing happens on the first row of the list. *)
Theorem UpLogic_spec (s : S) :
  grid_inv (view s) ->
  let '(mkView b e sc) := view s in
  view (UpLogic s) =
    if b <? 5 then
      if 4 <? e then mkView b (e - 5) (sc - 1) else view s
    else mkView (b - 5) (e - 5) sc.
Proof. intros Hinv. grid_simpl; f_equal; zlia. Qed.
End Branches.

Section Boundaries.
Context {S : Type} `{StoreAccessLaws S}.

(** C6. On the first entry LEFT and UP do nothing. *)
Theorem first_entry_left_up_noop (s : S) :
  grid_inv (view s) -> GetEntry s = 0 -> LeftLogic s = s /\ UpLogic s = s.
Proof. intros Hinv He. grid_simpl; split; reflexivity || lia. Qed.

(** C7. On the last entry ([Entry = (int)size - 1]) RIGHT and DOWN do
    nothing. *)
Theorem last_entry_right_down_noop n (s : S) :
  GetEntry s = int_of_size n - 1 -> RightLogic n s = s /\ DownLogic n s = s.
Proof. intros He. grid_simpl; split; reflexivity || lia. Qed.

(** C8. LEFT then RIGHT from a cell other than the first of its window
    gives back the same cursor. *)
Theorem left_right_interior n (s : S) :
  grid_inv (view s) -> 0 < GetBox s -> GetEntry s < int_of_size n ->
  view (RightLogic n (LeftLogic s)) = view s.
Proof. intros Hinv Hb He. grid_simpl; f_equal; zlia. Qed.

(** C9. LEFT then RIGHT from the first cell of a scrolled window gives
    back the selected entry, but in a window one row higher, on cell 5:
    the pair is not the identity the spec's idempotence claim states. *)
Theorem left_right_page_edge n (s : S) :
  grid_inv (view s) -> GetBox s = 0 -> 0 < GetEntry s < int_of_size n ->
  view (RightLogic n (LeftLogic s)) = mkView 5 (GetEntry s) (GetScreenIndx s - 1)
  /\ view (RightLogic n (LeftLogic s)) <> view s.
Proof.
  intros Hinv Hb He. unfold view at 3. grid_simpl; split; try (f_equal; zlia);
    intros E; injection E; lia.
Qed.

(** C10. RIGHT then LEFT from the last cell of the window keeps the
    selected entry but leaves the window one row lower, on cell 9; from
    any other cell the pair is the identity. *)
Theorem right_left n (s : S) :
  grid_inv (view s) -> GetEntry s < int_of_size n - 1 ->
  view (LeftLogic (RightLogic n s)) =
    if GetBox s <? 14 then view s else mkView 9 (GetEntry s) (GetScreenIndx s + 1).
Proof. intros Hinv He. grid_simpl; f_equal; zlia. Qed.
End Boundaries.

Section Frame.
Context {S : Type} `{StoreAccess S}.

(** C11. A frame in which one key is held runs that key's handler and
    nothing else; [KEY_A] in [hDown] only requests the fetch mode. *)
Theorem GridLogic_single_key (k : GridKey) n m (s : S) :
  GridLogic (Some s) n m (key_mask k) 0 = (Some (key_handler k n s), m)
  /\ GridLogic (Some s) n m 0 KEY_A = (Some s, ALogic m).
Proof.
  split; [|reflexivity].
  unfold GridLogic. change KEY_DOWN with (key_mask KDown).
  change KEY_RIGHT with (key_mask KRight). change KEY_LEFT with (key_mask KLeft).
  change KEY_UP with (key_mask KUp). autorewrite with grid_rw.
  destruct k; reflexivity.
Qed.

(** C12. [KEY_A] hands over to the fetch mode whatever the length of
    the list, an empty one included: [fetch] is set, [smallDelay] is 5,
    the mode becomes 1 and the previous mode is kept in [lastMode]. *)
Theorem GridLogic_activate n m hRepeat hDown (s : S) :
  pressed hDown KEY_A = true ->
  snd (GridLogic (Some s) n m hRepeat hDown)
    = mkMode 1 (currentMode m) true 5.
Proof. intros HA. simpl. rewrite HA. reflexivity. Qed.

(** C33. Either input device moves the cursor: libctru's [KEY_DOWN] and
    the other direction masks are the D-pad bit or'ed with the
    circle-pad bit, and [hRepeat & KEY_DOWN] tests both, so a frame in
    which only the D-pad bit, or only the circle-pad bit, of a direction
    is held runs that direction's block and nothing else. *)
Theorem either_pad_runs_block (k : GridKey) (b : Z) n m (s : S) :
  In (k, b) [(KDown, KEY_DDOWN); (KDown, KEY_CPAD_DOWN); (KRight, KEY_DRIGHT);
             (KRight, KEY_CPAD_RIGHT); (KLeft, KEY_DLEFT); (KLeft, KEY_CPAD_LEFT);
             (KUp, KEY_DUP); (KUp, KEY_CPAD_UP)] ->
  GridLogic (Some s) n m b 0 = (Some (key_handler k n s), m).
Proof. simpl. intros Hk. repeat destruct Hk as [Hk | Hk]; try contradiction; injection Hk as <- <-; reflexivity. Qed.

End Frame.

(** The handlers read the store only through its view: stores with the
    same view stay equivalent. *)
Section Respect.
Context {S : Type} `{StoreAccessLaws S}.

#[export] Instance DownLogic_proper : Proper (eq ==> grid_equiv ==> grid_equiv) (@DownLogic S _).
Proof.
  intros n ? <- s s' E. respect_view E.
Qed.

#[export] Instance RightLogic_proper : Proper (eq ==> grid_equiv ==> grid_equiv) (@RightLogic S _).
Proof.
  intros n ? <- s s' E. respect_view E.
Qed.

#[export] Instance LeftLogic_proper : Proper (grid_equiv ==> grid_equiv) (@LeftLogic S _).
Proof.
  intros s s' E. respect_view E.
Qed.

#[export] Instance UpLogic_proper : Proper (grid_equiv ==> grid_equiv) (@UpLogic S _).
Proof.
  intros s s' E. respect_view E.
Qed.
End Respect.

(** ** Concrete instances of the theorems, on the record [Store] *)


Lemma GridLogic_preserves_inv_witness : grid_inv (view (mkStore 14 19 1)).
Proof.
  apply (GridLogic_preserves_inv 20 (mkMode 0 0 false 0) KEY_DOWN 0 (mkStore 10 15 1)).
  - unfold size_t_range. lia.
  - unfold grid_inv, view. simpl. lia.
  - reflexivity.
Defined.

Lemma DownLogic_spec_witness : view (DownLogic 20 (mkStore 10 15 1)) = mkView 14 19 1.
Proof.
  refine (DownLogic_spec 20 (mkStore 10 15 1) _ _).
  - unfold INT_MAX. lia.
  - unfold grid_inv, view. simpl. lia.
Defined.

Lemma RightLogic_spec_witness : view (RightLogic 30 (mkStore 14 14 0)) = mkView 10 15 1.
Proof. refine (RightLogic_spec 30 (mkStore 14 14 0) _). unfold grid_inv, view. simpl. lia. Defined.

Lemma LeftLogic_spec_witness : view (LeftLogic (mkStore 0 10 2)) = mkView 4 9 1.
Proof. refine (LeftLogic_spec (mkStore 0 10 2) _). unfold grid_inv, view. simpl. lia. Defined.

Lemma UpLogic_spec_witness : view (UpLogic (mkStore 3 13 2)) = mkView 3 8 1.
Proof. refine (UpLogic_spec (mkStore 3 13 2) _). unfold grid_inv, view. simpl. lia. Defined.

Lemma first_entry_left_up_noop_witness :
  LeftLogic (mkStore 0 0 0) = mkStore 0 0 0 /\ UpLogic (mkStore 0 0 0) = mkStore 0 0 0.
Proof.
  apply (first_entry_left_up_noop (mkStore 0 0 0)).
  - unfold grid_inv, view. simpl. lia.
  - reflexivity.
Defined.

Lemma last_entry_right_down_noop_witness :
  RightLogic 20 (mkStore 14 19 1) = mkStore 14 19 1 /\ DownLogic 20 (mkStore 14 19 1) = mkStore 14 19 1.
Proof. apply (last_entry_right_down_noop 20 (mkStore 14 19 1)). vm_compute. reflexivity. Defined.

Lemma left_right_interior_witness :
  view (RightLogic 20 (LeftLogic (mkStore 7 12 1))) = view (mkStore 7 12 1).
Proof.
  apply (left_right_interior 20 (mkStore 7 12 1)).
  - unfold grid_inv, view. simpl. lia.
  - simpl. lia.
  - vm_compute. reflexivity.
Defined.

Lemma left_right_page_edge_witness :
  view (RightLogic 20 (LeftLogic (mkStore 0 10 2))) = mkView 5 10 1
  /\ view (RightLogic 20 (LeftLogic (mkStore 0 10 2))) <> view (mkStore 0 10 2).
Proof.
  refine (left_right_page_edge 20 (mkStore 0 10 2) _ _ _).
  - unfold grid_inv, view. simpl. lia.
  - reflexivity.
  - vm_compute. split; reflexivity.
Defined.

Lemma right_left_witness :
  view (LeftLogic (RightLogic 20 (mkStore 14 14 0))) = mkView 9 14 1.
Proof.
  refine (right_left 20 (mkStore 14 14 0) _ _).
  - unfold grid_inv, view. simpl. lia.
  - vm_compute. reflexivity.
Defined.

Lemma GridLogic_activate_witness :
  snd (GridLogic (Some initial_store) 0 (mkMode 0 0 false 0) 0 KEY_A) = mkMode 1 0 true 5.
Proof. apply (GridLogic_activate 0 (mkMode 0 0 false 0) 0 KEY_A initial_store). vm_compute. reflexivity. Defined.

Lemma either_pad_runs_block_witness :
  GridLogic (Some (mkStore 3 3 0)) 20 (mkMode 0 0 false 0) KEY_CPAD_DOWN 0
  = (Some (key_handler KDown 20 (mkStore 3 3 0)), mkMode 0 0 false 0).
Proof.
  refine (either_pad_runs_block KDown KEY_CPAD_DOWN 20 (mkMode 0 0 false 0) (mkStore 3 3 0) _).
  simpl. tauto.
Defined.
