(* ===== verification/Session.v ===== *)
(** * Session: a browsing session as a sequence of GridLogic frames

    The main loop calls [GridLogic] once per frame. [reachable lens s]
    holds for the stores a session can reach from a fresh store, each
    frame with any key masks and a list length allowed by [lens]: any
    [size_t] for a list that changes between frames, or one fixed length.
    On top of the step relation: the window invariant by rule induction,
    the range of the selection, the no-scrolling case, the bound that
    keeps the window's bottom row on the list, and a refinement
    of each handler's effect on [Entry] to an abstract cursor-on-a-list
    specification ([sel_step]). *)

From Stdlib Require Import ZArith Lia Bool List.
Import ListNotations.
From S2P Require Import Prelude Keys StoreIface Navigation.

Open Scope Z_scope.

(** ** Abstract specification: a cursor on a list of [n] entries *)

(** What each key does to the selected index [e], independently of the
    window: RIGHT and LEFT move by one inside the list, UP moves one row
    back when there is one, DOWN moves one row ahead when there is one
    and, from the bottom row of the window only, to the last entry
    otherwise. *)
Definition sel_step (k : GridKey) (bottom : bool) (n e : Z) : Z :=
  match k with
  | KRight => if e <? n - 1 then e + 1 else e
  | KLeft => if 0 <? e then e - 1 else e
  | KUp => if 4 <? e then e - 5 else e
  | KDown => if e + 5 <? n then e + 5 else if bottom && (e <? n - 1) then n - 1 else e
  | KA => e
  end.

(** The window starts on row 0 with the first cell highlighted. *)
Definition initial_view : GridView := mkView 0 0 0.

Section Reach.
Context {S : Type} `{StoreAccessLaws S}.

Inductive reachable (lens : Z -> Prop) : S -> Prop :=
| reach_init s : view s = initial_view -> reachable lens s
| reach_frame s s' n m m' hRepeat hDown :
    reachable lens s -> lens n ->
    GridLogic (Some s) n m hRepeat hDown = (Some s', m') -> reachable lens s'.

(** The selection of a fixed-length session: inside the list, or on
    entry 0 of an empty list, never scrolled when the list fits one
    screen, and otherwise never scrolled so far that the bottom row of
    the window [v_screen + 2] lies past the last entry. *)
Definition session_inv (n : Z) (v : GridView) : Prop :=
  grid_inv v /\ 0 <= v_entry v < Z.max n 1 /\ (n <= 15 -> v_screen v = 0)
  /\ (15 < n -> 5 * v_screen v + 10 < n).

(** ** Lemmas *)

Lemma handler_session_inv (h : S -> S) n (s : S) :
  0 <= n <= INT_MAX ->
  (h = DownLogic n \/ h = RightLogic n \/ h = LeftLogic \/ h = UpLogic) ->
  session_inv n (view s) -> session_inv n (view (h s)).
Proof.
  intros Hn Hh Hs. unfold session_inv in *.
  destruct Hh as [-> | [-> | [-> | ->]]]; unfold DownLogic, RightLogic;
    rewrite ?int_of_size_small by (unfold INT_MAX in *; lia);
    grid_simpl; rewrite ?(int_of_size_small (n - 1)) by (unfold INT_MAX in *; lia);
    zlia.
Qed.

Lemma cond_session_inv (b : bool) (h : S -> S) n (s : S) :
  0 <= n <= INT_MAX ->
  (h = DownLogic n \/ h = RightLogic n \/ h = LeftLogic \/ h = UpLogic) ->
  session_inv n (view s) -> session_inv n (view (if b then h s else s)).
Proof. destruct b; auto using handler_session_inv. Qed.

Lemma frame_session_inv n m m' hRepeat hDown (s s' : S) :
  0 <= n <= INT_MAX -> session_inv n (view s) ->
  GridLogic (Some s) n m hRepeat hDown = (Some s', m') -> session_inv n (view s').
Proof.
  intros Hn Hs E. simpl in E. injection E as <- _.
  repeat (apply cond_session_inv; [assumption | tauto |]). exact Hs.
Qed.

Lemma reachable_fixed_session_inv n (s : S) :
  0 <= n <= INT_MAX -> reachable (eq n) s -> session_inv n (view s).
Proof.
  intros Hn R. induction R as [s E | s s' n' m m' hr hd R IH <- G].
  - rewrite E. unfold session_inv, grid_inv, initial_view; simpl. lia.
  - eapply frame_session_inv; eauto.
Qed.

Lemma reachable_grid_inv_aux (s : S) : reachable size_t_range s -> grid_inv (view s).
Proof.
  induction 1 as [s E | s s' n m m' hr hd R IH Hn G].
  - rewrite E. unfold grid_inv, initial_view; simpl. lia.
  - eapply frame_inv; eauto.
Qed.

(** C13. Every store reachable with lists of any length satisfies the
    window invariant. *)
Theorem reachable_grid_inv (s : S) : reachable size_t_range s -> grid_inv (view s).
Proof. apply reachable_grid_inv_aux. Qed.

(** C14. In a session on a fixed non-empty list the selected entry
    always exists: [0 <= Entry < n]. *)
Theorem reachable_entry_in_range n (s : S) :
  0 < n <= INT_MAX -> reachable (eq n) s -> 0 <= GetEntry s < n.
Proof.
  intros Hn R. destruct (reachable_fixed_session_inv n s ltac:(lia) R) as (_ & Hr & _).
  simpl in Hr. lia.
Qed.

(** C15. A list of at most 15 entries is never scrolled: [ScreenIndx]
    stays 0 and the selected cell is the selected entry. *)
Theorem reachable_small_list_no_scroll n (s : S) :
  0 <= n <= 15 -> reachable (eq n) s -> GetScreenIndx s = 0 /\ GetBox s = GetEntry s.
Proof.
  intros Hn R. destruct (reachable_fixed_session_inv n s ltac:(unfold INT_MAX; lia) R)
    as ((Hi & _) & _ & Hsc & _). simpl in *. specialize (Hsc ltac:(lia)). lia.
Qed.

(** C16. With an empty list no key moves the cursor: the store keeps
    the view of a fresh store. *)
Theorem reachable_empty_list_fixed (s : S) : reachable (eq 0) s -> view s = initial_view.
Proof.
  intros R. destruct (reachable_fixed_session_inv 0 s ltac:(unfold INT_MAX; lia) R)
    as ((Hi & Hb & Hsc) & Hr & _).
  unfold initial_view, view in *. simpl in *. f_equal; lia.
Qed.

(** C32. In a session on a fixed list of more than 15 entries the
    window is never scrolled past the end: its bottom row, row
    [ScreenIndx + 2], starts at an entry of the list, so [DrawGrid]
    never shows an empty row at the bottom, whichever keys were held. *)
Theorem reachable_window_bottom_row_filled n (s : S) :
  15 < n <= INT_MAX -> reachable (eq n) s -> 5 * (GetScreenIndx s + 2) < n.
Proof.
  intros Hn R. destruct (reachable_fixed_session_inv n s ltac:(lia) R) as (_ & _ & _ & Hw).
  simpl in Hw. lia.
Qed.

(** C17. Refinement: on [Entry], each handler does what the abstract
    cursor [sel_step] does, the only window information it needs being
    whether the cursor is on the bottom row. *)
Theorem key_handler_refines_sel_step (k : GridKey) n (s : S) :
  0 <= n <= INT_MAX -> grid_inv (view s) ->
  GetEntry (key_handler k n s) = sel_step k (9 <? GetBox s) n (GetEntry s).
Proof.
  intros Hn Hinv. destruct k; simpl; try reflexivity; unfold DownLogic, RightLogic;
    rewrite ?int_of_size_small by (unfold INT_MAX in *; lia);
    grid_simpl; rewrite ?(int_of_size_small (n - 1)) by (unfold INT_MAX in *; lia);
    zlia.
Qed.
End Reach.

(** ** Concrete instances of the theorems *)

Lemma reachable_grid_inv_witness : grid_inv (view (mkStore 5 5 0)).
Proof.
  apply (reachable_grid_inv (mkStore 5 5 0)).
  refine (reach_frame _ initial_store (mkStore 5 5 0) 20 (mkMode 0 0 false 0)
            (mkMode 0 0 false 0) KEY_DOWN 0 _ _ _).
  - apply reach_init. reflexivity.
  - unfold size_t_range. lia.
  - reflexivity.
Defined.

Lemma reachable_entry_in_range_witness : 0 <= GetEntry (mkStore 5 5 0) < 20.
Proof.
  apply (reachable_entry_in_range 20 (mkStore 5 5 0)).
  - unfold INT_MAX. lia.
  - refine (reach_frame _ initial_store (mkStore 5 5 0) 20 (mkMode 0 0 false 0)
              (mkMode 0 0 false 0) KEY_DOWN 0 _ _ _).
    + apply reach_init. reflexivity.
    + reflexivity.
    + reflexivity.
Defined.

Lemma reachable_small_list_no_scroll_witness :
  GetScreenIndx (mkStore 2 2 0) = 0 /\ GetBox (mkStore 2 2 0) = GetEntry (mkStore 2 2 0).
Proof.
  apply (reachable_small_list_no_scroll 3 (mkStore 2 2 0)).
  - lia.
  - refine (reach_frame _ (mkStore 1 1 0) (mkStore 2 2 0) 3 (mkMode 0 0 false 0)
              (mkMode 0 0 false 0) KEY_RIGHT 0 _ _ _); [|reflexivity|reflexivity].
    refine (reach_frame _ initial_store (mkStore 1 1 0) 3 (mkMode 0 0 false 0)
              (mkMode 0 0 false 0) KEY_RIGHT 0 _ _ _); [|reflexivity|reflexivity].
    apply reach_init. reflexivity.
Defined.

Lemma reachable_empty_list_fixed_witness : view initial_store = initial_view.
Proof.
  apply (reachable_empty_list_fixed initial_store).
  refine (reach_frame _ initial_store initial_store 0 (mkMode 0 0 false 0)
            (mkMode 0 0 false 0) (Z.lor KEY_DOWN KEY_RIGHT) 0 _ _ _); [|reflexivity|reflexivity].
  apply reach_init. reflexivity.
Defined.

Lemma key_handler_refines_sel_step_witness :
  GetEntry (key_handler KDown 20 (mkStore 10 15 1)) = sel_step KDown true 20 15.
Proof.
  refine (key_handler_refines_sel_step KDown 20 (mkStore 10 15 1) _ _).
  - unfold INT_MAX. lia.
  - unfold grid_inv, view. simpl. lia.
Defined.

Lemma reachable_window_bottom_row_filled_witness : 5 * (GetScreenIndx (mkStore 14 19 1) + 2) < 20.
Proof.
  apply (reachable_window_bottom_row_filled 20 (mkStore 14 19 1)).
  - unfold INT_MAX. lia.
  - refine (reach_frame _ (mkStore 10 15 1) (mkStore 14 19 1) 20 (mkMode 0 0 false 0)
              (mkMode 0 0 false 0) KEY_DOWN 0 _ _ _); [|reflexivity|reflexivity].
    refine (reach_frame _ (mkStore 10 10 0) (mkStore 10 15 1) 20 (mkMode 0 0 false 0)
              (mkMode 0 0 false 0) KEY_DOWN 0 _ _ _); [|reflexivity|reflexivity].
    refine (reach_frame _ (mkStore 5 5 0) (mkStore 10 10 0) 20 (mkMode 0 0 false 0)
              (mkMode 0 0 false 0) KEY_DOWN 0 _ _ _); [|reflexivity|reflexivity].
    refine (reach_frame _ initial_store (mkStore 5 5 0) 20 (mkMode 0 0 false 0)
              (mkMode 0 0 false 0) KEY_DOWN 0 _ _ _); [|reflexivity|reflexivity].
    apply reach_init. reflexivity.
Defined.
