(* ===== verification/Int32.v ===== *)
(** * Int32: the key blocks in 32-bit [int] arithmetic

    The handlers of [Navigation] compute on unbounded integers. The C
    code computes on 32-bit [int]: every [+] and [-] of the blocks
    ([Entry + 5], [Box + 5], [(int)entries.size() - 1], [Entry / 5 - 2],
    [10 + Entry % 5], ...) overflows past [INT_MAX]. This file writes
    the same blocks with each of these operations reduced to 32 bits by
    [wrap32] (two's complement, the behaviour of the 3DS's ARM target)
    and proves that the two models agree on every frame of every session
    on a fixed list of at most [INT_MAX - 5] entries: within that range
    no operation of [GridLogic] overflows, and the unbounded model is the
    C semantics. Divisions ([/], [%]) by the constant 5 cannot overflow
    and are left as they are. *)

From Stdlib Require Import ZArith Lia Bool List.
Import ListNotations.
From S2P Require Import Prelude Keys StoreIface Navigation Session.

Open Scope Z_scope.

(** The result of a 32-bit [int] addition or subtraction: the exact
    result reduced to the int32 range, as the two's complement hardware
    computes it. *)
Definition wrap32 (z : Z) : Z :=
  let m := z mod 2 ^ 32 in if m <=? INT_MAX then m else m - 2 ^ 32.

Section Handlers32.
Context {S : Type} `{StoreAccess S}.

(** [if (hRepeat & KEY_DOWN) { ... }] in int32 arithmetic. *)
Definition DownLogic32 (size : Z) (store : S) : S :=
  if 9 <? GetBox store then
    if wrap32 (GetEntry store + 5) <? wrap32 (int_of_size size - 1) then
      let store := SetEntry store (wrap32 (GetEntry store + 5)) in
      if 15 <? size then SetScreenIndx store (wrap32 (Z.quot (GetEntry store) 5 - 2)) else store
    else
      if GetEntry store <? wrap32 (int_of_size size - 1) then
        let store := SetEntry store (int_of_size (size - 1)) in
        let store := SetBox store (wrap32 (10 + Z.rem (GetEntry store) 5)) in
        if 15 <? size then SetScreenIndx store (wrap32 (Z.quot (GetEntry store) 5 - 2)) else store
      else store
  else
    if wrap32 (GetEntry store + 5) <? int_of_size size then
      let store := SetBox store (wrap32 (GetBox store + 5)) in
      SetEntry store (wrap32 (GetEntry store + 5))
    else store.

(** [if (hRepeat & KEY_RIGHT) { ... }] in int32 arithmetic. *)
Definition RightLogic32 (size : Z) (store : S) : S :=
  if GetEntry store <? wrap32 (int_of_size size - 1) then
    if GetBox store <? 14 then
      let store := SetBox store (wrap32 (GetBox store + 1)) in
      SetEntry store (wrap32 (GetEntry store + 1))
    else
      let store := SetBox store 10 in
      let store := SetEntry store (wrap32 (GetEntry store + 1)) in
      SetScreenIndx store (wrap32 (Z.quot (GetEntry store) 5 - 2))
  else store.

(** [if (hRepeat & KEY_LEFT) { ... }] in int32 arithmetic. *)
Definition LeftLogic32 (store : S) : S :=
  if 0 <? GetEntry store then
    if 0 <? GetBox store then
      let store := SetBox store (wrap32 (GetBox store - 1)) in
      SetEntry store (wrap32 (GetEntry store - 1))
    else
      let store := SetBox store 4 in
      let store := SetEntry store (wrap32 (GetEntry store - 1)) in
      SetScreenIndx store (Z.quot (GetEntry store) 5)
  else store.

(** [if (hRepeat & KEY_UP) { ... }] in int32 arithmetic. *)
Definition UpLogic32 (store : S) : S :=
  if GetBox store <? 5 then
    if 4 <? GetEntry store then
      let store := SetEntry store (wrap32 (GetEntry store - 5)) in
      SetScreenIndx store (Z.quot (GetEntry store) 5)
    else store
  else
    let store := SetBox store (wrap32 (GetBox store - 5)) in
    SetEntry store (wrap32 (GetEntry store - 5)).

(** [StoreUtils::GridLogic] with the int32 blocks, in the code's order. *)
Definition GridLogic32 (store : option S) (size : Z) (m : Mode) (hRepeat hDown : Z)
    : option S * Mode :=
  match store with
  | None => (None, m)
  | Some st =>
      let st := if pressed hRepeat KEY_DOWN then DownLogic32 size st else st in
      let st := if pressed hRepeat KEY_RIGHT then RightLogic32 size st else st in
      let st := if pressed hRepeat KEY_LEFT then LeftLogic32 st else st in
      let st := if pressed hRepeat KEY_UP then UpLogic32 st else st in
      let m := if pressed hDown KEY_A then ALogic m else m in
      (Some st, m)
  end.
End Handlers32.

(** ** Lemmas *)

Lemma wrap32_small z : in_int32 z -> wrap32 z = z.
Proof.
  unfold in_int32, wrap32, INT_MIN, INT_MAX. intros Hz.
  destruct (Z.leb_spec (z mod 2 ^ 32) (2 ^ 31 - 1)); Z.to_euclidean_division_equations; lia.
Qed.

Lemma wrap32_in_int32 z : in_int32 (wrap32 z).
Proof. apply (int_of_size_in_int32 z). Qed.

(** Remove every [wrap32] whose argument [tac] shows to be in range,
    innermost first. *)
Ltac wrap32_away tac :=
  repeat match goal with
  | |- context [wrap32 ?z] => rewrite (wrap32_small z) by tac
  end.

(** The bound on the operands: a session store of a list of at most
    [INT_MAX - 5] entries. *)
Ltac int32_bound n :=
  unfold in_int32; pose proof (int_of_size_in_int32 (n - 1)); unfold in_int32 in *; zlia.

(** A block of the int32 semantics equals the unbounded block on a
    session store: unfold both, read the getters through the setters,
    and remove the wraps, every operand being in range. *)
Ltac block_agrees n :=
  let Hs := fresh "Hs" in
  intros Hs; unfold session_inv, grid_inv, view in Hs; simpl in Hs;
  unfold DownLogic32, DownLogic, RightLogic32, RightLogic, LeftLogic32, LeftLogic, UpLogic32, UpLogic;
  rewrite ?(int_of_size_small n) by (unfold INT_MAX in *; lia);
  cbv zeta; autorewrite with store; wrap32_away ltac:(int32_bound n); reflexivity.

Section Agree.
Context {S : Type} `{StoreAccessLaws S}.

(** One guarded block: the int32 block and the unbounded block agree,
    and the session invariant holds after it. *)
Lemma cond_agree (b : bool) (h32 h : S -> S) n (s : S) :
  0 <= n <= INT_MAX - 5 ->
  (h = DownLogic n \/ h = RightLogic n \/ h = LeftLogic \/ h = UpLogic) ->
  (session_inv n (view s) -> h32 s = h s) -> session_inv n (view s) ->
  (if b then h32 s else s) = (if b then h s else s)
  /\ session_inv n (view (if b then h s else s)).
Proof.
  intros Hn Hh E Hs. split; [destruct b; [apply E, Hs | reflexivity]|].
  apply cond_session_inv; [unfold INT_MAX in *; lia | exact Hh | exact Hs].
Qed.

(** C23. No signed overflow in a session: for a fixed list of at most
    [INT_MAX - 5] entries, every frame of [GridLogic] computed in 32-bit
    [int] arithmetic, where [Entry + 5], [(int)entries.size() - 1],
    [Entry / 5 - 2] and the other sums wrap around, gives the same store
    and mode as the unbounded model, in every store the session reaches.
    The unbounded handlers are therefore the C semantics there. *)
Theorem GridLogic_int32_agrees n m hRepeat hDown (s : S) :
  0 <= n <= INT_MAX - 5 -> reachable (eq n) s ->
  GridLogic32 (Some s) n m hRepeat hDown = GridLogic (Some s) n m hRepeat hDown.
Proof.
  intros Hn R. pose proof (reachable_fixed_session_inv n s ltac:(unfold INT_MAX in *; lia) R) as I0.
  unfold GridLogic32, GridLogic.
  destruct (cond_agree (pressed hRepeat KEY_DOWN) (DownLogic32 n) (DownLogic n) n s Hn
              ltac:(tauto) ltac:(block_agrees n) I0) as [E1 I1]. rewrite E1.
  destruct (cond_agree (pressed hRepeat KEY_RIGHT) (RightLogic32 n) (RightLogic n) n _ Hn
              ltac:(tauto) ltac:(block_agrees n) I1) as [E2 I2]. rewrite E2.
  destruct (cond_agree (pressed hRepeat KEY_LEFT) LeftLogic32 LeftLogic n _ Hn
              ltac:(tauto) ltac:(block_agrees n) I2) as [E3 I3]. rewrite E3.
  destruct (cond_agree (pressed hRepeat KEY_UP) UpLogic32 UpLogic n _ Hn
              ltac:(tauto) ltac:(block_agrees n) I3) as [E4 _]. rewrite E4.
  reflexivity.
Qed.

End Agree.

(** ** Concrete instances of the theorems, on the record [Store] *)

Lemma GridLogic_int32_agrees_witness :
  GridLogic32 (Some (mkStore 5 5 0)) 20 (mkMode 0 0 false 0) (Z.lor KEY_DOWN KEY_RIGHT) KEY_A
  = GridLogic (Some (mkStore 5 5 0)) 20 (mkMode 0 0 false 0) (Z.lor KEY_DOWN KEY_RIGHT) KEY_A.
Proof.
  refine (GridLogic_int32_agrees 20 (mkMode 0 0 false 0) (Z.lor KEY_DOWN KEY_RIGHT) KEY_A
            (mkStore 5 5 0) _ _).
  - unfold INT_MAX. lia.
  - refine (reach_frame _ initial_store (mkStore 5 5 0) 20 (mkMode 0 0 false 0)
              (mkMode 0 0 false 0) KEY_DOWN 0 _ _ _).
    + apply reach_init. reflexivity.
    + reflexivity.
    + reflexivity.
Defined.

