(* ===== verification/Render.v ===== *)
(** * Render: [StoreUtils::DrawGrid] and [GridBoxes] (grid.cpp, lines 30-86)

    [DrawGrid] is modelled as the list of draw calls it makes, in order,
    with their positions and, for an icon, the index of the entry it
    belongs to. The loop over the visible window is [draw_loop], a
    [Fixpoint] on a fuel of 15 (the loop's own bound). A read of
    [entries[i2]] or [GridBoxes[i]] outside the vector is undefined in
    C++; the model returns [None] for it. Theorems: the loop equals a
    reference window built cell by cell, the selection frame, the icons
    and the update marks it draws, the placement of small icons inside
    their cell, and the uint8_t wrap of the icon offset. *)

From Stdlib Require Import ZArith Lia Bool List.
Import ListNotations.
From S2P Require Import Prelude StoreIface.

Open Scope Z_scope.

(** [Structs::ButtonPos]. *)
Record ButtonPos := mkButtonPos { x : Z; y : Z; w : Z; h : Z }.

(** [static const std::vector<Structs::ButtonPos> GridBoxes]. *)
Definition GridBoxes : list ButtonPos := [
  mkButtonPos 25 45 50 50; mkButtonPos 100 45 50 50; mkButtonPos 175 45 50 50;
  mkButtonPos 250 45 50 50; mkButtonPos 325 45 50 50;

  mkButtonPos 25 105 50 50; mkButtonPos 100 105 50 50; mkButtonPos 175 105 50 50;
  mkButtonPos 250 105 50 50; mkButtonPos 325 105 50 50;

  mkButtonPos 25 165 50 50; mkButtonPos 100 165 50 50; mkButtonPos 175 165 50 50;
  mkButtonPos 250 165 50 50; mkButtonPos 325 165 50 50
].

(** The parts of a [StoreEntry] the grid reads: the icon's size
    ([GetIcon().subtex->width/height], 16-bit) and [GetUpdateAvl()]. *)
Record StoreEntry := mkStoreEntry { icon_width : Z; icon_height : Z; GetUpdateAvl : bool }.

(** The draw calls of [DrawGrid]. *)
Inductive DrawCmd :=
  | DrawStoreImg (px py : Z)            (* C2D_DrawImageAt(store->GetStoreImg(), 0, 26, ...) *)
  | DrawRect (px py pw ph : Z)          (* Gui::Draw_Rect(0, 26, 400, 214, BG_COLOR) *)
  | DrawBox (px py pw ph : Z)           (* GFX::DrawBox(x, y, 50, 50, true) *)
  | DrawIcon (idx : Z) (px py : Z)      (* C2D_DrawImageAt(entries[idx]->GetIcon(), px, py, 0.5) *)
  | DrawUpdateMark (px py : Z).         (* GFX::DrawSprite(sprites_update_app_idx, px, py) *)

(** [vector::operator[]] read: [None] outside the vector. *)
Definition vec_at {A} (v : list A) (i : Z) : option A :=
  if i <? 0 then None else nth_error v (Z.to_nat i).

(** [const uint8_t offsetW = (48 - tempImg.subtex->width) / 2;] *)
Definition center_offset (size : Z) : Z := to_uint8 (Z.quot (48 - size) 2).

(** The icon and update mark of entry [i2] in cell [pos]
    (lines 73-82). *)
Definition draw_entry (i2 : Z) (pos : ButtonPos) (ent : option StoreEntry) : list DrawCmd :=
  match ent with
  | None => []
  | Some e =>
      let offsetW := center_offset (icon_width e) in
      let offsetH := center_offset (icon_height e) in
      DrawIcon i2 (x pos + 1 + offsetW) (y pos + 1 + offsetH)
      :: (if GetUpdateAvl e then [DrawUpdateMark (x pos + 32) (y pos + 32)] else [])
  end.

(** [for (int i = 0, i2 = ScreenIndx * 5; i2 < 15 + ScreenIndx * 5 &&
    i2 < (int)entries.size(); i2++, i++) { ... }] *)
Fixpoint draw_loop (fuel : nat) (box screen : Z) (entries : list (option StoreEntry))
    (i i2 : Z) : option (list DrawCmd) :=
  match fuel with
  | O => Some []
  | S fuel' =>
      if (i2 <? 15 + screen * 5) && (i2 <? int_of_size (Z.of_nat (length entries))) then
        let sel :=
          if i =? box then
            match vec_at GridBoxes i with
            | Some pos => Some [DrawBox (x pos) (y pos) 50 50]
            | None => None
            end
          else Some [] in
        let cell :=
          if i2 <? int_of_size (Z.of_nat (length entries)) then
            match vec_at entries i2 with
            | Some None => Some []
            | Some (Some e) =>
                match vec_at GridBoxes i with
                | Some pos => Some (draw_entry i2 pos (Some e))
                | None => None
                end
            | None => None
            end
          else Some [] in
        match sel, cell, draw_loop fuel' box screen entries (i + 1) (i2 + 1) with
        | Some c1, Some c2, Some rest => Some (c1 ++ c2 ++ rest)
        | _, _, _ => None
        end
      else Some []
  end.

(** [DrawGrid(store, entries)]: [usebg] is [config->usebg()],
    [customBG] is [store->customBG()]. *)
Definition DrawGrid {S} `{StoreAccess S} (usebg customBG : bool) (store : option S)
    (entries : list (option StoreEntry)) : option (list DrawCmd) :=
  match store with
  | None => Some []
  | Some s =>
      let bg := if usebg && customBG then [DrawStoreImg 0 26] else [DrawRect 0 26 400 214] in
      match draw_loop 15 (GetBox s) (GetScreenIndx s) entries 0 (GetScreenIndx s * 5) with
      | Some cmds => Some (bg ++ cmds)
      | None => None
      end
  end.

(** ** Reference: the window as a map over its visible cells *)

(** The cell in row [i / 5], column [i mod 5] of the 3 x 5 lattice. *)
Definition cell_pos (i : Z) : ButtonPos :=
  mkButtonPos (25 + 75 * col i) (45 + 60 * row i) 50 50.

(** The number of cells the window starting at row [screen] fills in a
    list of [len] entries. *)
Definition visible_cells (screen len : Z) : nat := Z.to_nat (Z.min 15 (len - 5 * screen)).

(** What cell [j] shows: the selection frame when it is the highlighted
    cell, then entry [5 * screen + j]. *)
Definition cell_cmds (box screen : Z) (entries : list (option StoreEntry)) (j : nat) : list DrawCmd :=
  let i := Z.of_nat j in
  let i2 := 5 * screen + i in
  (if i =? box then [DrawBox (x (cell_pos i)) (y (cell_pos i)) 50 50] else [])
  ++ draw_entry i2 (cell_pos i) (nth (Z.to_nat i2) entries None).

Definition window_cmds (box screen : Z) (entries : list (option StoreEntry)) : list DrawCmd :=
  flat_map (cell_cmds box screen entries)
    (seq 0 (visible_cells screen (Z.of_nat (length entries)))).

(** A draw call of the selection frame. *)
Definition is_frame (c : DrawCmd) : bool :=
  match c with DrawBox _ _ _ _ => true | _ => false end.

(** The entries whose icon a list of draw calls shows, in order. *)
Definition icon_indices (cmds : list DrawCmd) : list Z :=
  flat_map (fun c => match c with DrawIcon i _ _ => [i] | _ => [] end) cmds.

(** The visible entries of the window starting at row [screen] that are
    not null: the icons the window should show. The cells after the last
    entry are blank. *)
Definition present_entries (screen : Z) (entries : list (option StoreEntry)) : list Z :=
  filter (fun i => match nth (Z.to_nat i) entries None with Some _ => true | None => false end)
    (map (fun j => 5 * screen + Z.of_nat j) (seq 0 (visible_cells screen (Z.of_nat (length entries))))).

(** The positions at which a list of draw calls puts the update mark,
    in order. *)
Definition update_marks (cmds : list DrawCmd) : list (Z * Z) :=
  flat_map (fun c => match c with DrawUpdateMark px py => [(px, py)] | _ => [] end) cmds.

(** ** Lemmas *)

Lemma GridBoxes_lattice_aux (k : nat) :
  (k < 15)%nat -> nth_error GridBoxes k = Some (cell_pos (Z.of_nat k)).
Proof.
  intros Hk. do 15 (destruct k as [|k]; [reflexivity|]). lia.
Qed.

Lemma vec_at_entries (entries : list (option StoreEntry)) i :
  0 <= i < Z.of_nat (length entries) -> vec_at entries i = Some (nth (Z.to_nat i) entries None).
Proof.
  intros Hi. unfold vec_at. destruct (Z.ltb_spec i 0); [lia|].
  apply nth_error_nth'. lia.
Qed.

Lemma draw_loop_window fuel box screen (entries : list (option StoreEntry)) (i : nat) :
  0 <= screen -> Z.of_nat (length entries) <= INT_MAX -> (15 <= i + fuel)%nat ->
  draw_loop fuel box screen entries (Z.of_nat i) (Z.of_nat i + screen * 5)
  = Some (flat_map (cell_cmds box screen entries)
            (seq i (visible_cells screen (Z.of_nat (length entries)) - i))).
Proof.
  intros Hsc Hlen. revert i. induction fuel as [|fuel IH]; intros i Hf; simpl.
  - replace (visible_cells _ _ - i)%nat with 0%nat by (unfold visible_cells; lia). reflexivity.
  - rewrite int_of_size_small by lia.
    destruct (Z.ltb_spec (Z.of_nat i + screen * 5) (15 + screen * 5));
      destruct (Z.ltb_spec (Z.of_nat i + screen * 5) (Z.of_nat (length entries))); simpl;
      try (replace (visible_cells _ _ - i)%nat with 0%nat by (unfold visible_cells; lia);
           reflexivity).
    replace (visible_cells _ _ - i)%nat
      with (S (visible_cells screen (Z.of_nat (length entries)) - S i)) by (unfold visible_cells; lia).
    simpl. rewrite vec_at_entries by lia.
    unfold vec_at at 1 2. destruct (Z.ltb_spec (Z.of_nat i) 0); [lia|].
    rewrite Nat2Z.id, GridBoxes_lattice_aux by lia.
    replace (Z.of_nat i + 1) with (Z.of_nat (S i)) by lia.
    replace (Z.of_nat i + screen * 5 + 1) with (Z.of_nat (S i) + screen * 5) by lia.
    rewrite IH by lia. unfold cell_cmds.
    replace (5 * screen + Z.of_nat i) with (Z.of_nat i + screen * 5) by lia.
    destruct (Z.eqb_spec (Z.of_nat i) box);
      destruct (nth (Z.to_nat (Z.of_nat i + screen * 5)) entries None); reflexivity.
Qed.

Lemma filter_cell_cmds box screen entries j :
  filter is_frame (cell_cmds box screen entries j)
  = if Z.of_nat j =? box then [DrawBox (x (cell_pos box)) (y (cell_pos box)) 50 50] else [].
Proof.
  unfold cell_cmds. rewrite filter_app.
  assert (E : filter is_frame (draw_entry (5 * screen + Z.of_nat j) (cell_pos (Z.of_nat j))
                (nth (Z.to_nat (5 * screen + Z.of_nat j)) entries None)) = []).
  { destruct (nth _ entries None) as [[]|]; simpl; [destruct GetUpdateAvl0|]; reflexivity. }
  rewrite E, app_nil_r. destruct (Z.eqb_spec (Z.of_nat j) box) as [<-|]; reflexivity.
Qed.

Lemma filter_flat_map {A B} (f : B -> bool) (g : A -> list B) (l : list A) :
  filter f (flat_map g l) = flat_map (fun a => filter f (g a)) l.
Proof. induction l as [|a l IH]; simpl; [reflexivity|]. rewrite filter_app, IH. reflexivity. Qed.

Lemma flat_map_single_hit {A} (a : A) (b : Z) (st m : nat) :
  flat_map (fun j => if Z.of_nat j =? b then [a] else []) (seq st m)
  = if (Z.of_nat st <=? b) && (b <? Z.of_nat (st + m)) then [a] else [].
Proof.
  revert st. induction m as [|m IH]; intros st; simpl.
  - destruct (Z.leb_spec (Z.of_nat st) b); destruct (Z.ltb_spec b (Z.of_nat (st + 0))); simpl;
      reflexivity || lia.
  - rewrite IH. destruct (Z.eqb_spec (Z.of_nat st) b);
      destruct (Z.leb_spec (Z.of_nat (S st)) b); destruct (Z.ltb_spec b (Z.of_nat (S st + m)));
      destruct (Z.leb_spec (Z.of_nat st) b); destruct (Z.ltb_spec b (Z.of_nat (st + S m)));
      simpl; reflexivity || lia.
Qed.

Lemma draw_loop_window0 fuel box screen (entries : list (option StoreEntry)) :
  0 <= screen -> Z.of_nat (length entries) <= INT_MAX -> (15 <= fuel)%nat ->
  draw_loop fuel box screen entries 0 (screen * 5) = Some (window_cmds box screen entries).
Proof.
  intros. pose proof (draw_loop_window fuel box screen entries 0) as E.
  change (Z.of_nat 0) with 0 in E. rewrite Z.add_0_l in E.
  rewrite E by lia. unfold window_cmds. rewrite Nat.sub_0_r. reflexivity.
Qed.

(** An iteration that reads [entries] at a negative index fails. *)
Lemma draw_loop_negative_read fuel box screen (entries : list (option StoreEntry)) i i2 :
  i2 < 0 -> i2 < 15 + screen * 5 -> i2 < int_of_size (Z.of_nat (length entries)) ->
  draw_loop (S fuel) box screen entries i i2 = None.
Proof.
  intros Hneg Hwin Hlen. simpl.
  destruct (Z.ltb_spec i2 (15 + screen * 5)); [|lia].
  destruct (Z.ltb_spec i2 (int_of_size (Z.of_nat (length entries)))); [|lia]. simpl.
  unfold vec_at at 2. destruct (Z.ltb_spec i2 0); [|lia].
  destruct (i =? box); [destruct (vec_at GridBoxes i)|]; reflexivity.
Qed.

(** The selection frames among the draw calls of a window. *)
Lemma frames_of_grid usebg customBG box screen entries :
  filter is_frame ((if usebg && customBG then [DrawStoreImg 0 26] else [DrawRect 0 26 400 214])
                   ++ window_cmds box screen entries)
  = if (0 <=? box) && (box <? Z.of_nat (visible_cells screen (Z.of_nat (length entries))))
    then [DrawBox (x (cell_pos box)) (y (cell_pos box)) 50 50] else [].
Proof.
  rewrite filter_app. replace (filter is_frame (if usebg && customBG then _ else _)) with (@nil DrawCmd)
    by (destruct (usebg && customBG); reflexivity).
  unfold window_cmds. rewrite filter_flat_map.
  erewrite flat_map_ext by (intros j; apply filter_cell_cmds).
  rewrite flat_map_single_hit. reflexivity.
Qed.

Lemma icon_indices_app c1 c2 : icon_indices (c1 ++ c2) = icon_indices c1 ++ icon_indices c2.
Proof. apply flat_map_app. Qed.

Lemma icon_indices_flat_map {A} (f : A -> list DrawCmd) (l : list A) :
  icon_indices (flat_map f l) = flat_map (fun a => icon_indices (f a)) l.
Proof. induction l as [|a l IH]; simpl; [reflexivity|]. rewrite icon_indices_app, IH. reflexivity. Qed.

Lemma filter_map_flat_map {A} (p : Z -> bool) (f : A -> Z) (l : list A) :
  filter p (map f l) = flat_map (fun a => if p (f a) then [f a] else []) l.
Proof. induction l as [|a l IH]; simpl; [reflexivity|]. rewrite IH. destruct (p (f a)); reflexivity. Qed.

Lemma update_marks_app c1 c2 : update_marks (c1 ++ c2) = update_marks c1 ++ update_marks c2.
Proof. apply flat_map_app. Qed.

Lemma update_marks_flat_map {A} (f : A -> list DrawCmd) (l : list A) :
  update_marks (flat_map f l) = flat_map (fun a => update_marks (f a)) l.
Proof. induction l as [|a l IH]; simpl; [reflexivity|]. rewrite update_marks_app, IH. reflexivity. Qed.

(** The centring offset of an icon of at most 48 pixels leaves room for
    the icon in the 48 pixels inside the cell's border. *)
Lemma center_offset_small sz : 0 <= sz <= 48 -> 0 <= center_offset sz /\ 2 * center_offset sz <= 48 - sz.
Proof. intros Hsz. unfold center_offset, to_uint8. zlia. Qed.

Lemma DrawGrid_window_aux {S} `{StoreAccess S} usebg customBG (s : S) entries :
  0 <= GetScreenIndx s -> Z.of_nat (length entries) <= INT_MAX ->
  DrawGrid usebg customBG (Some s) entries
  = Some ((if usebg && customBG then [DrawStoreImg 0 26] else [DrawRect 0 26 400 214])
          ++ window_cmds (GetBox s) (GetScreenIndx s) entries).
Proof.
  intros Hsc Hlen. unfold DrawGrid. rewrite draw_loop_window0 by lia. reflexivity.
Qed.

(** The selection frames of a consistent store's grid: one frame, on
    cell [Box], when the selected entry is in the list, and none
    otherwise. *)
Lemma DrawGrid_frames {S} `{StoreAccess S} usebg customBG (s : S) entries :
  grid_inv (view s) -> Z.of_nat (length entries) <= INT_MAX ->
  exists cmds, DrawGrid usebg customBG (Some s) entries = Some cmds
    /\ filter is_frame cmds
       = if GetEntry s <? Z.of_nat (length entries)
         then [DrawBox (x (cell_pos (GetBox s))) (y (cell_pos (GetBox s))) 50 50] else [].
Proof.
  intros Hinv Hlen. unfold grid_inv, view in Hinv. simpl in Hinv.
  rewrite DrawGrid_window_aux by lia. eexists; split; [reflexivity|].
  rewrite frames_of_grid. unfold visible_cells.
  destruct (Z.ltb_spec (GetEntry s) (Z.of_nat (length entries))), (Z.leb_spec 0 (GetBox s)),
    (Z.ltb_spec (GetBox s) (Z.of_nat (Z.to_nat (Z.min 15 (Z.of_nat (length entries) - 5 * GetScreenIndx s)))));
    reflexivity || lia.
Qed.

(** C18. [DrawGrid] draws, after the background, exactly the reference
    window: for each visible cell in order, the selection frame if it is
    the highlighted cell, then the icon and update mark of its entry. *)
Theorem DrawGrid_draws_window {S} `{StoreAccess S} usebg customBG (s : S) entries :
  0 <= GetScreenIndx s -> Z.of_nat (length entries) <= INT_MAX ->
  DrawGrid usebg customBG (Some s) entries
  = Some ((if usebg && customBG then [DrawStoreImg 0 26] else [DrawRect 0 26 400 214])
          ++ window_cmds (GetBox s) (GetScreenIndx s) entries).
Proof. apply DrawGrid_window_aux. Qed.

(** C19. With a negative [ScreenIndx] the loop starts at a negative
    [i2] and reads [entries[i2]] out of bounds: [DrawGrid] relies on the
    invariant [0 <= ScreenIndx] that [GridLogic] maintains. *)
Theorem DrawGrid_negative_screen_out_of_bounds {S} `{StoreAccess S} usebg customBG (s : S) entries :
  GetScreenIndx s < 0 -> 1 <= Z.of_nat (length entries) <= INT_MAX ->
  DrawGrid usebg customBG (Some s) entries = None.
Proof.
  intros Hsc Hlen. unfold DrawGrid.
  rewrite draw_loop_negative_read; [reflexivity | lia | lia | rewrite int_of_size_small; lia].
Qed.

(** C20. In a consistent store whose selected entry exists, [DrawGrid]
    draws one selection frame, on the cell [Box] of the lattice, and
    draws the selected entry's icon (when it is not null) in that cell. *)
Theorem DrawGrid_one_frame_on_selection {S} `{StoreAccess S} usebg customBG (s : S) entries :
  grid_inv (view s) -> GetEntry s < Z.of_nat (length entries) <= INT_MAX ->
  exists cmds, DrawGrid usebg customBG (Some s) entries = Some cmds
    /\ filter is_frame cmds = [DrawBox (x (cell_pos (GetBox s))) (y (cell_pos (GetBox s))) 50 50]
    /\ forall ent, nth (Z.to_nat (GetEntry s)) entries None = Some ent ->
         In (DrawIcon (GetEntry s) (x (cell_pos (GetBox s)) + 1 + center_offset (icon_width ent))
                                   (y (cell_pos (GetBox s)) + 1 + center_offset (icon_height ent))) cmds.
Proof.
  intros Hinv Hlen. unfold grid_inv, view in Hinv. simpl in Hinv.
  rewrite DrawGrid_window_aux by lia. eexists; split; [reflexivity|]. split.
  - rewrite frames_of_grid.
    replace ((0 <=? GetBox s) && (GetBox s <? Z.of_nat (visible_cells _ _))) with true
      by (symmetry; apply andb_true_iff; rewrite Z.leb_le, Z.ltb_lt; unfold visible_cells; lia).
    reflexivity.
  - intros ent Hent. apply in_or_app. right. unfold window_cmds. apply in_flat_map.
    exists (Z.to_nat (GetBox s)). split.
    + apply in_seq. unfold visible_cells. lia.
    + unfold cell_cmds. rewrite Z2Nat.id by lia. apply in_or_app. right.
      replace (5 * GetScreenIndx s + GetBox s) with (GetEntry s) by lia.
      rewrite Hent. left. reflexivity.
Qed.

(** C28. When the list has shrunk to at most [Entry] entries (the
    selected entry is gone), [DrawGrid] draws no selection frame at all:
    no cell of the window is highlighted. *)
Theorem DrawGrid_no_frame_past_end {S} `{StoreAccess S} usebg customBG (s : S) entries :
  grid_inv (view s) -> Z.of_nat (length entries) <= GetEntry s ->
  Z.of_nat (length entries) <= INT_MAX ->
  exists cmds, DrawGrid usebg customBG (Some s) entries = Some cmds /\ filter is_frame cmds = [].
Proof.
  intros Hinv Hlen Hmax. destruct (DrawGrid_frames usebg customBG s entries Hinv Hmax) as (c & E & F).
  exists c. split; [exact E|]. rewrite F. destruct (Z.ltb_spec (GetEntry s) (Z.of_nat (length entries))); [lia | reflexivity].
Qed.

(** C30. The icons [DrawGrid] draws are exactly those of the non-null
    entries of the visible part of the window, in cell order: a null
    entry leaves its cell empty, and when the window runs past the end of
    the list the cells after the last entry stay blank. *)
Theorem DrawGrid_draws_present_entries {S} `{StoreAccess S} usebg customBG (s : S) entries :
  0 <= GetScreenIndx s -> Z.of_nat (length entries) <= INT_MAX ->
  exists cmds, DrawGrid usebg customBG (Some s) entries = Some cmds
    /\ icon_indices cmds = present_entries (GetScreenIndx s) entries.
Proof.
  intros Hsc Hlen. rewrite DrawGrid_window_aux by assumption. eexists; split; [reflexivity|].
  rewrite icon_indices_app.
  replace (icon_indices (if usebg && customBG then _ else _)) with (@nil Z)
    by (destruct (usebg && customBG); reflexivity).
  unfold window_cmds, present_entries. rewrite icon_indices_flat_map, filter_map_flat_map.
  apply flat_map_ext. intros j. unfold cell_cmds. rewrite icon_indices_app.
  replace (icon_indices (if Z.of_nat j =? GetBox s then _ else [])) with (@nil Z)
    by (destruct (Z.of_nat j =? GetBox s); reflexivity).
  destruct (nth _ entries None) as [e|]; simpl; [|reflexivity].
  destruct (GetUpdateAvl e); reflexivity.
Qed.

(** C34. The update mark: [DrawGrid] draws the update sprite on exactly
    the visible non-null entries whose [GetUpdateAvl()] holds, in cell
    order, at pixel [(57 + 75 * col, 77 + 60 * row)] of the cell showing
    the entry: 32 pixels right of and below the cell's corner in
    [GridBoxes]. *)
Theorem DrawGrid_update_marks {S} `{StoreAccess S} usebg customBG (s : S) entries :
  0 <= GetScreenIndx s -> Z.of_nat (length entries) <= INT_MAX ->
  exists cmds, DrawGrid usebg customBG (Some s) entries = Some cmds
    /\ update_marks cmds
       = flat_map (fun j => match nth (Z.to_nat (5 * GetScreenIndx s + Z.of_nat j)) entries None with
                            | Some e => if GetUpdateAvl e
                                        then [(57 + 75 * (Z.of_nat j mod 5), 77 + 60 * (Z.of_nat j / 5))]
                                        else []
                            | None => [] end)
           (seq 0 (visible_cells (GetScreenIndx s) (Z.of_nat (length entries)))).
Proof.
  intros Hsc Hlen. rewrite DrawGrid_window_aux by assumption. eexists; split; [reflexivity|].
  rewrite update_marks_app.
  replace (update_marks (if usebg && customBG then _ else _)) with (@nil (Z * Z))
    by (destruct (usebg && customBG); reflexivity).
  unfold window_cmds. rewrite update_marks_flat_map. apply flat_map_ext. intros j.
  unfold cell_cmds. rewrite update_marks_app.
  replace (update_marks (if Z.of_nat j =? GetBox s then _ else [])) with (@nil (Z * Z))
    by (destruct (Z.of_nat j =? GetBox s); reflexivity).
  destruct (nth _ entries None) as [e|]; simpl; [|reflexivity].
  destruct (GetUpdateAvl e); simpl; [|reflexivity].
  unfold cell_pos, GRID_COLS; simpl. f_equal. f_equal; lia.
Qed.

(** C35. Icons of at most 48 x 48 pixels stay inside their cell: every
    icon [DrawGrid] draws is that of an existing entry [i] of the window,
    drawn in cell [i - 5 * ScreenIndx], and when the icon is at most 48
    pixels wide and high it lies within the cell's 1-pixel border, so it
    never covers a neighbouring cell or the selection frame's edge. *)
Theorem DrawGrid_icons_inside_cells {S} `{StoreAccess S} usebg customBG (s : S) entries cmds i px py :
  0 <= GetScreenIndx s -> Z.of_nat (length entries) <= INT_MAX ->
  DrawGrid usebg customBG (Some s) entries = Some cmds -> In (DrawIcon i px py) cmds ->
  0 <= i - 5 * GetScreenIndx s < 15
  /\ exists e, nth (Z.to_nat i) entries None = Some e
    /\ (0 <= icon_width e <= 48 -> 0 <= icon_height e <= 48 ->
        x (cell_pos (i - 5 * GetScreenIndx s)) + 1 <= px
        /\ px + icon_width e <= x (cell_pos (i - 5 * GetScreenIndx s)) + 49
        /\ y (cell_pos (i - 5 * GetScreenIndx s)) + 1 <= py
        /\ py + icon_height e <= y (cell_pos (i - 5 * GetScreenIndx s)) + 49).
Proof.
  intros Hsc Hlen E Hin. rewrite DrawGrid_window_aux in E by assumption. injection E as <-.
  apply in_app_or in Hin as [Hin | Hin];
    [destruct (usebg && customBG); destruct Hin as [Hin | []]; discriminate|].
  unfold window_cmds in Hin. apply in_flat_map in Hin as (j & Hj & Hin).
  apply in_seq in Hj. unfold visible_cells in Hj. unfold cell_cmds in Hin.
  apply in_app_or in Hin as [Hin | Hin];
    [destruct (Z.of_nat j =? GetBox s); simpl in Hin; repeat (destruct Hin as [Hin | Hin]; [discriminate|]);
     contradiction|].
  destruct (nth _ entries None) as [e|] eqn:En; [|contradiction].
  simpl in Hin. destruct Hin as [Hin | Hin];
    [|destruct (GetUpdateAvl e); simpl in Hin; repeat (destruct Hin as [Hin | Hin]; [discriminate|]);
      contradiction].
  injection Hin as <- <- <-. split; [lia|]. exists e. split; [exact En|].
  replace (5 * GetScreenIndx s + Z.of_nat j - 5 * GetScreenIndx s) with (Z.of_nat j) by lia.
  intros Hw Hh. pose proof (center_offset_small _ Hw). pose proof (center_offset_small _ Hh). unfold cell_pos; cbn [x y]; lia.
Qed.

(** C21. [GridBoxes] is the 3 x 5 lattice the row/column arithmetic of
    the cursor assumes: cell [i] is at column [i mod 5], row [i / 5]. *)
Theorem GridBoxes_lattice i :
  0 <= i < 15 ->
  vec_at GridBoxes i = Some (mkButtonPos (25 + 75 * (i mod 5)) (45 + 60 * (i / 5)) 50 50).
Proof.
  intros Hi. unfold vec_at. destruct (Z.ltb_spec i 0); [lia|].
  rewrite GridBoxes_lattice_aux by lia. rewrite Z2Nat.id by lia. reflexivity.
Qed.

(** C22. Icon centring: an icon at most 48 pixels wide is offset by half
    the free space; at 49 the truncating division gives 0; from 50 on
    the negative offset wraps around in [uint8_t] to [256 - (w - 48) / 2],
    at least 232 up to 96 pixels: such an icon is drawn outside its cell. *)
Theorem center_offset_cases sz :
  (0 <= sz <= 48 -> center_offset sz = (48 - sz) / 2 /\ center_offset sz <= 24)
  /\ center_offset 49 = 0
  /\ (50 <= sz <= 560 -> center_offset sz = 256 - (sz - 48) / 2)
  /\ (50 <= sz <= 96 -> 232 <= center_offset sz).
Proof.
  unfold center_offset, to_uint8.
  split; [intros; zlia|]. split; [reflexivity|]. split; intros; zlia.
Qed.

(** The window loop stops within 15 iterations: with more fuel it
    computes the same draw calls. *)
Lemma draw_loop_fuel_enough fuel box screen entries :
  (15 <= fuel)%nat -> 0 <= screen -> Z.of_nat (length entries) <= INT_MAX ->
  draw_loop fuel box screen entries 0 (screen * 5) = draw_loop 15 box screen entries 0 (screen * 5).
Proof.
  intros Hf Hsc Hlen. rewrite !draw_loop_window0 by lia. reflexivity.
Qed.

(** ** Concrete instances of the theorems *)

Lemma DrawGrid_draws_window_witness :
  DrawGrid true false (Some (mkStore 2 2 0))
    [Some (mkStoreEntry 48 48 true); None; Some (mkStoreEntry 40 44 false)]
  = Some ([DrawRect 0 26 400 214]
          ++ window_cmds 2 0 [Some (mkStoreEntry 48 48 true); None; Some (mkStoreEntry 40 44 false)]).
Proof.
  refine (DrawGrid_draws_window true false (mkStore 2 2 0) _ _ _).
  - simpl. lia.
  - simpl. unfold INT_MAX. lia.
Defined.

Lemma DrawGrid_negative_screen_out_of_bounds_witness :
  DrawGrid false false (Some (mkStore 0 (-5) (-1))) [None] = None.
Proof.
  refine (DrawGrid_negative_screen_out_of_bounds false false (mkStore 0 (-5) (-1)) _ _ _).
  - simpl. lia.
  - simpl. unfold INT_MAX. lia.
Defined.

Lemma DrawGrid_one_frame_on_selection_witness :
  exists cmds, DrawGrid false false (Some (mkStore 2 2 0))
    [Some (mkStoreEntry 48 48 true); None; Some (mkStoreEntry 40 44 false)] = Some cmds
    /\ filter is_frame cmds = [DrawBox 175 45 50 50]
    /\ forall ent, nth 2 [Some (mkStoreEntry 48 48 true); None; Some (mkStoreEntry 40 44 false)] None
                   = Some ent ->
         In (DrawIcon 2 (175 + 1 + center_offset (icon_width ent))
                        (45 + 1 + center_offset (icon_height ent))) cmds.
Proof.
  refine (DrawGrid_one_frame_on_selection false false (mkStore 2 2 0) _ _ _).
  - unfold grid_inv, view. simpl. lia.
  - simpl. unfold INT_MAX. lia.
Defined.

Lemma GridBoxes_lattice_witness : vec_at GridBoxes 7 = Some (mkButtonPos 175 105 50 50).
Proof. refine (GridBoxes_lattice 7 _). lia. Defined.

Lemma center_offset_cases_witness : center_offset 64 = 248 /\ center_offset 32 = 8.
Proof.
  split.
  - refine (proj1 (proj2 (proj2 (center_offset_cases 64))) _). lia.
  - refine (proj1 (proj1 (center_offset_cases 32) _)). lia.
Defined.

Lemma DrawGrid_no_frame_past_end_witness :
  exists cmds, DrawGrid false false (Some (mkStore 2 7 1)) (repeat None 6) = Some cmds
    /\ filter is_frame cmds = [].
Proof.
  refine (DrawGrid_no_frame_past_end false false (mkStore 2 7 1) (repeat None 6) _ _ _).
  - unfold grid_inv, view. simpl. lia.
  - simpl. lia.
  - simpl. unfold INT_MAX. lia.
Defined.

Lemma DrawGrid_draws_present_entries_witness :
  exists cmds, DrawGrid false false (Some (mkStore 3 8 1))
    [None; None; None; None; None; Some (mkStoreEntry 48 48 false); None; Some (mkStoreEntry 40 40 true)]
    = Some cmds /\ icon_indices cmds = [5; 7].
Proof.
  refine (DrawGrid_draws_present_entries false false (mkStore 3 8 1) _ _ _).
  - simpl. lia.
  - simpl. unfold INT_MAX. lia.
Defined.

Lemma DrawGrid_update_marks_witness :
  exists cmds, DrawGrid false false (Some (mkStore 3 8 1))
                 (repeat (Some (mkStoreEntry 48 48 false)) 6 ++ [Some (mkStoreEntry 48 48 true)]) = Some cmds
    /\ update_marks cmds = [(132, 77)].
Proof.
  refine (DrawGrid_update_marks false false (mkStore 3 8 1) _ _ _).
  - simpl. lia.
  - simpl. unfold INT_MAX. lia.
Defined.

Lemma DrawGrid_icons_inside_cells_witness :
  0 <= 6 - 5 * 1 < 15
  /\ exists e, nth (Z.to_nat 6) (repeat (Some (mkStoreEntry 40 32 true)) 8) None = Some e
    /\ (0 <= icon_width e <= 48 -> 0 <= icon_height e <= 48 ->
        x (cell_pos (6 - 5 * 1)) + 1 <= 105 /\ 105 + icon_width e <= x (cell_pos (6 - 5 * 1)) + 49
        /\ y (cell_pos (6 - 5 * 1)) + 1 <= 54 /\ 54 + icon_height e <= y (cell_pos (6 - 5 * 1)) + 49).
Proof.
  refine (DrawGrid_icons_inside_cells false false (mkStore 3 8 1) (repeat (Some (mkStoreEntry 40 32 true)) 8)
            _ 6 105 54 _ _ _ _).
  - simpl. lia.
  - simpl. unfold INT_MAX. lia.
  - vm_compute. reflexivity.
  - vm_compute. tauto.
Defined.
