(* ===== verification/Frames.v ===== *)
(** * Frames: several keys in one frame, and lists that change length

    [GridLogic] tests the four direction bits one after the other, so a
    frame in which several directions are held runs their blocks in the
    fixed order DOWN, RIGHT, LEFT, UP. [held] lists the blocks a mask
    runs, in that order, and [run_keys] runs a list of blocks; their
    composition is what one frame does. The file then states what the
    code does when the order matters and when the list has shrunk below
    the selected entry (the spec re-reads the length every frame). *)

From Stdlib Require Import ZArith Lia Bool List Morphisms.
Import ListNotations.
From S2P Require Import Prelude Keys StoreIface Navigation.

Open Scope Z_scope.

(** The order in which [GridLogic] tests the direction keys. *)
Definition code_order : list GridKey := [KDown; KRight; KLeft; KUp].

(** The direction blocks a [hRepeat] mask runs, in the code's order. *)
Definition held (hRepeat : Z) : list GridKey :=
  filter (fun k => pressed hRepeat (key_mask k)) code_order.

(** Run the blocks of a list of keys one after the other. *)
Definition run_keys {S} `{StoreAccess S} (n : Z) (ks : list GridKey) (s : S) : S :=
  fold_left (fun st k => key_handler k n st) ks s.

(** ** Lemmas *)

Lemma GridLogic_held {S} `{StoreAccess S} (s : S) n m hRepeat hDown :
  GridLogic (Some s) n m hRepeat hDown
  = (Some (run_keys n (held hRepeat) s), if pressed hDown KEY_A then ALogic m else m).
Proof.
  unfold GridLogic, held, run_keys. simpl.
  destruct (pressed hRepeat KEY_DOWN), (pressed hRepeat KEY_RIGHT),
    (pressed hRepeat KEY_LEFT), (pressed hRepeat KEY_UP); reflexivity.
Qed.

Lemma run_keys_app {S} `{StoreAccess S} n (ks1 ks2 : list GridKey) (s : S) :
  run_keys n (ks1 ++ ks2) s = run_keys n ks2 (run_keys n ks1 s).
Proof. unfold run_keys. apply fold_left_app. Qed.

Lemma held_key_mask (k : GridKey) : k <> KA -> held (key_mask k) = [k].
Proof. destruct k; intros Hk; [reflexivity .. | congruence]. Qed.


Section Order.
Context {S : Type} `{StoreAccessLaws S}.

Lemma LeftLogic_entry (s : S) : 0 < GetEntry s -> GetEntry (LeftLogic s) = GetEntry s - 1.
Proof. intros He. grid_simpl; lia. Qed.

Lemma run_left_entry n k (s : S) :
  grid_inv (view s) -> Z.of_nat k <= GetEntry s ->
  GetEntry (run_keys n (repeat KLeft k) s) = GetEntry s - Z.of_nat k
  /\ grid_inv (view (run_keys n (repeat KLeft k) s)).
Proof.
  revert s. induction k as [|k IH]; intros s Hinv Hk; [simpl; split; [lia | exact Hinv]|].
  simpl repeat. unfold run_keys. simpl fold_left. fold (run_keys n (repeat KLeft k) (LeftLogic s)).
  destruct (IH (LeftLogic s)) as [E I]; [apply LeftLogic_inv; exact Hinv | rewrite LeftLogic_entry; lia |].
  rewrite E, LeftLogic_entry by lia. split; [lia | exact I].
Qed.

(** C24. DOWN and UP held in the same frame: DOWN runs first, so the
    pair is UP after DOWN, and its effect depends on the row and on the
    distance to the end of the list.
    - From the upper rows, when DOWN can move, the pair cancels.
    - On the bottom row far from the end, DOWN scrolls and UP moves the
      cursor a row up: the selected entry is kept but the window moves
      one row down (for a list of more than 15 entries).
    - On the bottom row near the end, DOWN jumps to the last entry
      [n - 1] and UP moves five entries back: the selection moves to
      [n - 6], on the middle row.
    - When DOWN cannot move, the frame is UP alone. *)
Theorem down_up_same_frame n m (s : S) :
  0 <= n <= INT_MAX -> grid_inv (view s) -> GetEntry s < n ->
  exists s', GridLogic (Some s) n m (Z.lor KEY_DOWN KEY_UP) 0 = (Some s', m)
    /\ view s' =
       if GetBox s <=? 9 then
         if GetEntry s + 5 <? n then view s else view (UpLogic s)
       else if GetEntry s + 5 <? n - 1 then
         mkView (GetBox s - 5) (GetEntry s) (if 15 <? n then GetScreenIndx s + 1 else GetScreenIndx s)
       else if GetEntry s <? n - 1 then
         mkView (5 + (n - 1) mod 5) (n - 6) (if 15 <? n then (n - 1) / 5 - 2 else GetScreenIndx s)
       else view (UpLogic s).
Proof.
  intros Hn Hinv He. rewrite GridLogic_held.
  replace (held (Z.lor KEY_DOWN KEY_UP)) with [KDown; KUp] by reflexivity.
  eexists; split; [reflexivity|]. unfold run_keys; simpl.
  unfold DownLogic; rewrite !int_of_size_small by (unfold INT_MAX in *; lia).
  grid_simpl; rewrite ?(int_of_size_small (n - 1)) by (unfold INT_MAX in *; lia); f_equal; zlia.
Qed.

(** C25. Once the list has shrunk to [n <= Entry] entries, RIGHT and DOWN
    do nothing, LEFT moves back one entry and UP five when it can: the
    cursor is never brought back into the list by the code itself. *)
Theorem shrunk_list_blocks n (s : S) :
  0 <= n <= INT_MAX -> grid_inv (view s) -> n <= GetEntry s ->
  RightLogic n s = s /\ DownLogic n s = s
  /\ GetEntry (LeftLogic s) = (if 0 <? GetEntry s then GetEntry s - 1 else GetEntry s)
  /\ GetEntry (UpLogic s) = (if 4 <? GetEntry s then GetEntry s - 5 else GetEntry s).
Proof.
  intros Hn Hinv He. unfold RightLogic, DownLogic.
  rewrite !int_of_size_small by (unfold INT_MAX in *; lia).
  grid_simpl; repeat split; reflexivity || zlia.
Qed.

(** C26. Recovery: from a consistent store left [k] entries past the end
    of a non-empty list, [Entry - n + 1] LEFT presses bring the selection
    back to the last entry, keeping the window invariant. *)
Theorem shrunk_list_left_recovers n (s : S) :
  0 < n -> grid_inv (view s) -> n <= GetEntry s ->
  GetEntry (run_keys n (repeat KLeft (Z.to_nat (GetEntry s - n + 1))) s) = n - 1
  /\ grid_inv (view (run_keys n (repeat KLeft (Z.to_nat (GetEntry s - n + 1))) s)).
Proof.
  intros Hn Hinv He. destruct (run_left_entry n (Z.to_nat (GetEntry s - n + 1)) s Hinv)
    as [E I]; [lia|]. rewrite E. split; [lia | exact I].
Qed.

End Order.

Section Respect.
Context {S : Type} `{StoreAccessLaws S}.

#[export] Instance key_handler_proper :
  Proper (eq ==> eq ==> grid_equiv ==> grid_equiv) (@key_handler S _).
Proof.
  intros k ? <- n ? <- s s' E. destruct k; simpl; [rewrite E .. | exact E]; reflexivity.
Qed.

#[export] Instance run_keys_proper :
  Proper (eq ==> eq ==> grid_equiv ==> grid_equiv) (@run_keys S _).
Proof.
  intros n ? <- ks ? <-. induction ks as [|k ks IH]; intros s s' E; [exact E|].
  unfold run_keys; simpl. apply IH. rewrite E. reflexivity.
Qed.

End Respect.

(** ** Concrete instances of the theorems, on the record [Store] *)

Lemma down_up_same_frame_witness :
  exists s', GridLogic (Some (mkStore 11 16 1)) 20 (mkMode 0 0 false 0) (Z.lor KEY_DOWN KEY_UP) 0
             = (Some s', mkMode 0 0 false 0)
    /\ view s' = mkView 9 14 1.
Proof.
  refine (down_up_same_frame 20 (mkMode 0 0 false 0) (mkStore 11 16 1) _ _ _).
  - unfold INT_MAX. lia.
  - unfold grid_inv, view. simpl. lia.
  - simpl. lia.
Defined.

Lemma shrunk_list_blocks_witness :
  RightLogic 10 (mkStore 12 12 0) = mkStore 12 12 0 /\ DownLogic 10 (mkStore 12 12 0) = mkStore 12 12 0
  /\ GetEntry (LeftLogic (mkStore 12 12 0)) = 11 /\ GetEntry (UpLogic (mkStore 12 12 0)) = 7.
Proof.
  refine (shrunk_list_blocks 10 (mkStore 12 12 0) _ _ _).
  - unfold INT_MAX. lia.
  - unfold grid_inv, view. simpl. lia.
  - simpl. lia.
Defined.

Lemma shrunk_list_left_recovers_witness :
  GetEntry (run_keys 10 (repeat KLeft 3) (mkStore 12 12 0)) = 9
  /\ grid_inv (view (run_keys 10 (repeat KLeft 3) (mkStore 12 12 0))).
Proof.
  refine (shrunk_list_left_recovers 10 (mkStore 12 12 0) _ _ _).
  - lia.
  - unfold grid_inv, view. simpl. lia.
  - simpl. lia.
Defined.

