(* ===== verification/Liveness.v ===== *)
(** * Liveness: reaching entries, and drawing every reachable store

    Composes the session ([Session]), the frame normal form ([Frames])
    and the renderer ([Render]). From a fresh store, entry [t = 5q + r]
    of a fixed list is selected by [q] DOWN then [r] RIGHT frames, and
    the path ends on a cell and window given in closed form; no key
    sequence moves the selection faster than five entries per block, so
    that path is within four frames of the shortest. In every reachable
    store, also when the list changes length between frames, [DrawGrid]
    reads no entry out of bounds and highlights exactly the selected
    entry when it exists. *)

From Stdlib Require Import ZArith Lia Bool List.
Import ListNotations.
From S2P Require Import Prelude Keys StoreIface Navigation Session Frames Render.

Open Scope Z_scope.

Section Live.
Context {S : Type} `{StoreAccessLaws S}.

(** ** Lemmas *)

Lemma reachable_key_frame n k (s : S) :
  k <> KA -> reachable (eq n) s -> reachable (eq n) (key_handler k n s).
Proof.
  intros Hk R. apply (reach_frame _ s _ n (mkMode 0 0 false 0) (mkMode 0 0 false 0) (key_mask k) 0 R eq_refl).
  rewrite GridLogic_held, held_key_mask by exact Hk. reflexivity.
Qed.

Lemma reachable_run_keys n (ks : list GridKey) (s : S) :
  Forall (fun k => k <> KA) ks -> reachable (eq n) s -> reachable (eq n) (run_keys n ks s).
Proof.
  revert s. induction ks as [|k ks IH]; intros s Hks R; [exact R|].
  inversion Hks as [|? ? Hk Hks']; subst.
  unfold run_keys; simpl. apply IH; [exact Hks' | apply reachable_key_frame; assumption].
Qed.

Lemma key_list_no_A (k : GridKey) (m : nat) : k <> KA -> Forall (fun k' => k' <> KA) (repeat k m).
Proof. intros Hk. apply Forall_forall. intros k' Hk'. apply repeat_spec in Hk'. congruence. Qed.

(** One direction block moves [Entry] by at most five. *)
Lemma key_handler_entry_step (k : GridKey) n (s : S) :
  0 <= n <= INT_MAX -> Z.abs (GetEntry (key_handler k n s) - GetEntry s) <= 5.
Proof.
  intros Hn. destruct (Z.eq_dec n 0) as [->|Hn0].
  - destruct k; simpl; unfold DownLogic, RightLogic;
      try change (int_of_size 0) with 0; try change (int_of_size (0 - 1)) with (-1);
      grid_simpl; lia.
  - destruct k; simpl; unfold DownLogic, RightLogic;
      rewrite ?int_of_size_small by (unfold INT_MAX in *; lia);
      grid_simpl; rewrite ?(int_of_size_small (n - 1)) by (unfold INT_MAX in *; lia); lia.
Qed.

(** C27. Bound on the speed of the cursor: each direction block moves
    the selected entry by at most five, so a run of [k] blocks moves it
    by at most [5 * k]. From a fresh store, selecting entry [t] takes at
    least [t / 5] blocks, whatever keys are held: the row-first path of
    C29, of [t / 5 + t mod 5] frames, is within four frames of the
    shortest. *)
Theorem entry_moves_at_most_five n (ks : list GridKey) (s : S) :
  0 <= n <= INT_MAX -> Z.abs (GetEntry (run_keys n ks s) - GetEntry s) <= 5 * Z.of_nat (length ks).
Proof.
  intros Hn. revert s. induction ks as [|k ks IH]; intros s; [unfold run_keys; simpl; lia|].
  unfold run_keys; simpl. fold (run_keys n ks (key_handler k n s)).
  specialize (IH (key_handler k n s)). pose proof (key_handler_entry_step k n s Hn). lia.
Qed.

(** One DOWN frame on column 0, [k] rows down from a fresh store. *)
Lemma down_step_view n k (s : S) :
  0 <= k -> n <= INT_MAX -> 5 * k + 5 < n ->
  view s = mkView (5 * Z.min k 2) (5 * k) (Z.max 0 (k - 2)) ->
  view (DownLogic n s) = mkView (5 * Z.min (k + 1) 2) (5 * k + 5) (Z.max 0 (k - 1)).
Proof.
  intros Hk Hn Hlt E. unfold view in E. injection E as Eb Ee Es.
  unfold DownLogic. rewrite !int_of_size_small by (unfold INT_MAX in *; lia).
  grid_simpl; rewrite ?(int_of_size_small (n - 1)) by (unfold INT_MAX in *; lia); f_equal; zlia.
Qed.

Lemma run_down_view n q (s : S) :
  n <= INT_MAX -> 5 * Z.of_nat q < n -> view s = initial_view ->
  view (run_keys n (repeat KDown q) s)
  = mkView (5 * Z.min (Z.of_nat q) 2) (5 * Z.of_nat q) (Z.max 0 (Z.of_nat q - 2)).
Proof.
  intros Hn. induction q as [|q IH]; intros Hq E; [exact E|].
  simpl repeat.
  rewrite repeat_cons, run_keys_app.
  unfold run_keys at 1; simpl.
  rewrite (down_step_view n (Z.of_nat q)); [f_equal; lia | lia | lia | lia |].
  apply IH; (assumption || lia).
Qed.

(** One RIGHT frame that neither wraps nor reaches the last entry. *)
Lemma right_step_view n b e sc (s : S) :
  view s = mkView b e sc -> 0 <= n <= INT_MAX -> b < 14 -> e < n - 1 ->
  view (RightLogic n s) = mkView (b + 1) (e + 1) sc.
Proof.
  intros E Hn Hb He. unfold view in E. injection E as Eb Ee Es.
  unfold RightLogic. rewrite int_of_size_small by lia. grid_simpl; f_equal; lia.
Qed.

Lemma run_right_view n r b e sc (s : S) :
  0 <= n <= INT_MAX -> view s = mkView b e sc -> b + Z.of_nat r <= 14 -> e + Z.of_nat r < n ->
  view (run_keys n (repeat KRight r) s) = mkView (b + Z.of_nat r) (e + Z.of_nat r) sc.
Proof.
  intros Hn. revert s b e. induction r as [|r IH]; intros s b e E Hb He;
    [unfold run_keys; simpl; rewrite E; f_equal; lia|].
  simpl repeat. unfold run_keys; simpl. fold (run_keys n (repeat KRight r) (RightLogic n s)).
  rewrite (IH (RightLogic n s) (b + 1) (e + 1)); [f_equal; lia | | lia | lia].
  apply right_step_view; (assumption || lia).
Qed.



(** The view at the end of the row-first path to entry [t]. *)
Lemma run_rows_view n t (s0 : S) :
  0 <= t < n -> n <= INT_MAX -> view s0 = initial_view ->
  view (run_keys n (repeat KDown (Z.to_nat (t / 5)) ++ repeat KRight (Z.to_nat (t mod 5))) s0)
  = mkView (5 * Z.min (t / 5) 2 + t mod 5) t (Z.max 0 (t / 5 - 2)).
Proof.
  intros Ht Hn E0. rewrite run_keys_app.
  rewrite (run_right_view n _ (5 * Z.min (Z.of_nat (Z.to_nat (t / 5))) 2)
             (5 * Z.of_nat (Z.to_nat (t / 5))) (Z.max 0 (Z.of_nat (Z.to_nat (t / 5)) - 2)));
    [| zlia | apply run_down_view; (assumption || zlia) | zlia | zlia].
  rewrite !Z2Nat.id by zlia. f_equal; zlia.
Qed.

(** C29. Liveness with a shorter path, and where it ends: entry
    [t = 5q + r] is selected from a fresh store by [q] DOWN frames then
    [r] RIGHT frames (within [t / 5 + 4] frames, through stores the
    session reaches), and the path ends in column [r] of window row
    [min q 2], the window starting at row [max 0 (q - 2)]: once the list
    has been scrolled the selection is on the bottom row. *)
Theorem every_entry_selectable_by_rows n t (s0 : S) :
  0 <= t < n -> n <= INT_MAX -> view s0 = initial_view ->
  exists ks, length ks = (Z.to_nat (t / 5) + Z.to_nat (t mod 5))%nat
    /\ reachable (eq n) (run_keys n ks s0)
    /\ view (run_keys n ks s0) = mkView (5 * Z.min (t / 5) 2 + t mod 5) t (Z.max 0 (t / 5 - 2)).
Proof.
  intros Ht Hn E0.
  exists (repeat KDown (Z.to_nat (t / 5)) ++ repeat KRight (Z.to_nat (t mod 5))).
  split; [rewrite length_app, !repeat_length; reflexivity|]. split.
  - apply reachable_run_keys; [apply Forall_app; split; apply key_list_no_A; discriminate|].
    apply reach_init. exact E0.
  - apply run_rows_view; assumption.
Qed.

(** C31. Rendering every reachable store is safe, also when the list
    changes length between frames: [DrawGrid] never reads out of
    bounds, and it draws exactly one selection frame, on cell [Box],
    when the selected entry is still in the list, and none when the
    list has shrunk below it. *)
Theorem reachable_store_drawn_safely usebg customBG (s : S) entries :
  reachable size_t_range s -> Z.of_nat (length entries) <= INT_MAX ->
  exists cmds, DrawGrid usebg customBG (Some s) entries = Some cmds
    /\ filter is_frame cmds
       = if GetEntry s <? Z.of_nat (length entries)
         then [DrawBox (x (cell_pos (GetBox s))) (y (cell_pos (GetBox s))) 50 50] else [].
Proof.
  intros R Hlen. apply DrawGrid_frames; [apply reachable_grid_inv_aux; exact R | exact Hlen].
Qed.

End Live.

(** ** Concrete instances of the theorems, on the record [Store] *)

Lemma entry_moves_at_most_five_witness :
  Z.abs (GetEntry (run_keys 20 [KDown; KDown; KDown; KRight] initial_store) - GetEntry initial_store) <= 20.
Proof. refine (entry_moves_at_most_five 20 [KDown; KDown; KDown; KRight] initial_store _). unfold INT_MAX. lia. Defined.

Lemma every_entry_selectable_by_rows_witness :
  exists ks, length ks = 5%nat
    /\ reachable (eq 20) (run_keys 20 ks initial_store) /\ view (run_keys 20 ks initial_store) = mkView 13 13 0.
Proof.
  refine (every_entry_selectable_by_rows 20 13 initial_store _ _ _).
  - lia.
  - unfold INT_MAX. lia.
  - reflexivity.
Defined.

Lemma reachable_store_drawn_safely_witness :
  exists cmds, DrawGrid false false (Some (mkStore 5 5 0)) [Some (mkStoreEntry 48 48 false); None; None] = Some cmds
    /\ filter is_frame cmds = [].
Proof.
  refine (reachable_store_drawn_safely false false (mkStore 5 5 0) _ _ _).
  - refine (reach_frame _ initial_store (mkStore 5 5 0) 20 (mkMode 0 0 false 0)
              (mkMode 0 0 false 0) KEY_DOWN 0 _ _ _).
    + apply reach_init. reflexivity.
    + unfold size_t_range. lia.
    + reflexivity.
  - simpl. unfold INT_MAX. lia.
Defined.
